(** * Authentication backend: token lifecycle and session state machine

    A shallow embedding of the Express controllers of the repository
    ([controllers/Auth.js], [controllers/oAuthController.js]), the session
    middleware ([middlewares/userAuth.js]), the router
    ([routes/authRoutes.js]) and the user schema ([models/UserModel.js]).

    Conventions of the embedding.
    - A request field is a JSON string or absent ([field]); [!x] is
      [falsy x].  On strings, [==] and [===] agree, so both are [String.eqb].
    - Timestamps ([Date.now()], the [Number] expiry fields) are integers.
    - The collection is the list of its documents in insertion order.
    - A handler is a computation over the [world] (collection and outbox)
      that either returns a value or throws; a write made before a throw
      stays.  [try { ... } catch (error) { ... }] is [try_catch].
    - What a handler reads from outside (clock, random UUID, salt, mail
      server, identity provider) is passed in a [runtime] record.
    - [jsonwebtoken] is modelled symbolically: a token records its payload,
      its timestamps and the key that signed it.
    - The controllers are given twice.  [Section Controllers] is the code
      on a request whose body was parsed, in a deployment where the store
      answers and [JWT_SECRET] is set: there a store call fails only for
      the reasons the schema gives, and [jwt.sign] returns.  [Module
      Express] is the code as Express calls it: [req.body] may be
      [undefined], a store call may reject, and [jwt.sign] and [jwt.verify]
      throw without a secret.  [Express_app_nominal] proves that the second
      is the first under the conditions of the first. *)

From Stdlib Require Import String List ZArith Bool Arith Lia.
Import ListNotations.
Local Open Scope string_scope.
Local Open Scope Z_scope.

(** ** JavaScript values of request fields *)

Definition field := option string.

(** [!x] for a field that is a string or [undefined]. *)
Definition falsy (x : field) : bool :=
  match x with
  | None => true
  | Some s => String.eqb s ""
  end.

(** String conversion, as in a template literal. *)
Definition text (x : field) : string :=
  match x with
  | Some s => s
  | None => "undefined"
  end.

(** ** models/UserModel.js *)

Definition ObjectId := nat.

Module UserModel.

Record user : Type := mkUser {
  _id : ObjectId;
  email : string;
  name : string;
  password : string;
  verifyToken : string;
  verifyTokenExpireAt : Z;
  isAccountVerified : bool;
  resetToken : string;
  resetTokenExpireAt : Z
}.

(** Field updates of a document ([$set] of one path). *)
Definition set_password (p : string) (u : user) : user :=
  mkUser (_id u) (email u) (name u) p (verifyToken u) (verifyTokenExpireAt u)
         (isAccountVerified u) (resetToken u) (resetTokenExpireAt u).

Definition set_verifyToken (t : string) (u : user) : user :=
  mkUser (_id u) (email u) (name u) (password u) t (verifyTokenExpireAt u)
         (isAccountVerified u) (resetToken u) (resetTokenExpireAt u).

Definition set_verifyTokenExpireAt (z : Z) (u : user) : user :=
  mkUser (_id u) (email u) (name u) (password u) (verifyToken u) z
         (isAccountVerified u) (resetToken u) (resetTokenExpireAt u).

Definition set_isAccountVerified (b : bool) (u : user) : user :=
  mkUser (_id u) (email u) (name u) (password u) (verifyToken u)
         (verifyTokenExpireAt u) b (resetToken u) (resetTokenExpireAt u).

Definition set_resetToken (t : string) (u : user) : user :=
  mkUser (_id u) (email u) (name u) (password u) (verifyToken u)
         (verifyTokenExpireAt u) (isAccountVerified u) t (resetTokenExpireAt u).

Definition set_resetTokenExpireAt (z : Z) (u : user) : user :=
  mkUser (_id u) (email u) (name u) (password u) (verifyToken u)
         (verifyTokenExpireAt u) (isAccountVerified u) (resetToken u) z.

(** The paths a caller of [new UserModel({...})] may give; a path left out
    takes the schema default. *)
Record user_init : Type := mkInit {
  i_email : field;
  i_name : field;
  i_password : option string;
  i_verifyToken : option string;
  i_verifyTokenExpireAt : option Z;
  i_isAccountVerified : option bool
}.

Definition or_default {A : Type} (d : A) (o : option A) : A :=
  match o with
  | Some a => a
  | None => d
  end.

(** [new UserModel(init)]: the document gets its [_id] at construction.  A
    required path that was not given is kept as the empty string, which the
    [required] validator rejects just as it rejects [undefined]. *)
Definition new_UserModel (oid : ObjectId) (i : user_init) : user :=
  {| _id := oid;
     email := or_default "" (i_email i);
     name := or_default "" (i_name i);
     password := or_default "" (i_password i);
     verifyToken := or_default "" (i_verifyToken i);
     verifyTokenExpireAt := or_default 0 (i_verifyTokenExpireAt i);
     isAccountVerified := or_default false (i_isAccountVerified i);
     resetToken := "";
     resetTokenExpireAt := 0 |}.

End UserModel.

Definition collection := list UserModel.user.

Definition has_email (e : string) (u : UserModel.user) : bool :=
  String.eqb (UserModel.email u) e.
Definition has_id (i : ObjectId) (u : UserModel.user) : bool :=
  Nat.eqb (UserModel._id u) i.

(** An [ObjectId] that no document of the collection carries. *)
Definition fresh_id (c : collection) : ObjectId :=
  S (list_max (map UserModel._id c)).

(** Apply [f] to the first document that satisfies [p]. *)
Fixpoint update_first (p : UserModel.user -> bool)
  (f : UserModel.user -> UserModel.user) (c : collection) : collection :=
  match c with
  | [] => []
  | u :: c' => if p u then f u :: c' else u :: update_first p f c'
  end.

(** ** Outbound mail and HTTP replies *)

Record mail : Type := mkMail {
  mail_from : string;
  mail_to : string;
  mail_subject : string;
  mail_link : string   (* the URL embedded in the text of the mail *)
}.

(** ** Session tokens (jsonwebtoken) *)

Record claims : Type := mkClaims {
  c_id : option ObjectId;
  c_email : field;
  c_name : field
}.

Record jwt : Type := mkJwt {
  payload : claims;
  iat : Z;          (* seconds *)
  exp : Z;          (* seconds *)
  signed_with : string
}.

(** What a client may send in the [token] cookie. *)
Inductive cookie_value : Type :=
| Signed (t : jwt)
| Garbage (s : string).

Definition seconds_7d : Z := 7 * 24 * 60 * 60.

(** [jwt.sign(payload, secret, {expiresIn: '7d'})] at clock [now] (ms). *)
Definition jwt_sign (p : claims) (secret : string) (now : Z) : jwt :=
  {| payload := p;
     iat := now / 1000;
     exp := now / 1000 + seconds_7d;
     signed_with := secret |}.

Record cookie_options : Type := mkOpts {
  httpOnly : bool;
  secure : bool;
  sameSite : string;
  maxAge : option Z
}.

Inductive cookie_directive : Type :=
| NoCookie
| SetCookie (cname : string) (value : jwt) (o : cookie_options)
| ClearCookie (cname : string) (o : cookie_options).

Inductive body : Type :=
| Json (success : bool) (message : option string)
| Redirect (url : string).

Record reply : Type := mkReply {
  cookie : cookie_directive;
  sent : body
}.

(** [res.json({success, message})] with no cookie set before. *)
Definition json (success : bool) (message : option string) : reply :=
  {| cookie := NoCookie; sent := Json success message |}.

Definition session_cookie_options : cookie_options :=
  {| httpOnly := true; secure := true; sameSite := "None";
     maxAge := Some (7 * 24 * 60 * 60 * 1000) |}.

Definition clear_cookie_options : cookie_options :=
  {| httpOnly := true; secure := true; sameSite := "None"; maxAge := None |}.

(** [res.cookie('token', t, {...}); return res.json(...)]. *)
Definition json_with_session (t : jwt) (success : bool)
  (message : option string) : reply :=
  {| cookie := SetCookie "token" t session_cookie_options;
     sent := Json success message |}.

(** ** Handlers as computations *)

Record world : Type := mkWorld {
  users : collection;
  outbox : list mail
}.

Inductive res (A : Type) : Type :=
| Val (a : A)
| Exn (msg : string).
Arguments Val {A} a.
Arguments Exn {A} msg.

Definition M (A : Type) : Type := world -> res A * world.

Definition ret {A : Type} (a : A) : M A := fun w => (Val a, w).

Definition throw {A : Type} (msg : string) : M A := fun w => (Exn msg, w).

Definition bind {A B : Type} (m : M A) (k : A -> M B) : M B :=
  fun w =>
    match m w with
    | (Val a, w') => k a w'
    | (Exn msg, w') => (Exn msg, w')
    end.

(** [try { m } catch (error) { h error.message }]. *)
Definition try_catch {A : Type} (m : M A) (h : string -> M A) : M A :=
  fun w =>
    match m w with
    | (Val a, w') => (Val a, w')
    | (Exn msg, w') => h msg w'
    end.

(** A library call that may reject. *)
Definition lift {A : Type} (r : res A) : M A := fun w => (r, w).

Declare Scope js_scope.
Delimit Scope js_scope with js.
Notation "x <- m ;; k" := (bind m (fun x => k))
  (at level 61, m at next level, right associativity) : js_scope.
Notation "m ;;; k" := (bind m (fun _ => k))
  (at level 61, right associativity) : js_scope.
Local Open Scope js_scope.

(** *** Store operations (Mongoose) *)

(** [UserModel.findOne({email})].  An absent field is sent as [null], which
    no stored string equals. *)
Definition findOne (e : field) : M (option UserModel.user) :=
  fun w =>
    match e with
    | None => (Val None, w)
    | Some s => (Val (find (has_email s) (users w)), w)
    end.

(** [UserModel.updateOne({email}, {$set})]. *)
Definition updateOne (e : field) (f : UserModel.user -> UserModel.user)
  : M unit :=
  fun w =>
    match e with
    | None => (Val tt, w)
    | Some s =>
        (Val tt, {| users := update_first (has_email s) f (users w);
                    outbox := outbox w |})
    end.

(** [doc.save()] on a document that was loaded from the collection: the
    modified paths are written to the document with that [_id]. *)
Definition save (doc : UserModel.user)
  (f : UserModel.user -> UserModel.user) : M unit :=
  fun w =>
    (Val tt, {| users := update_first (has_id (UserModel._id doc)) f (users w);
                outbox := outbox w |}).

(** The schema's validators: [email] and [name] are required. *)
Definition validate (u : UserModel.user) : res unit :=
  if String.eqb (UserModel.email u) "" then
    Exn "user validation failed: email: Path `email` is required."
  else if String.eqb (UserModel.name u) "" then
    Exn "user validation failed: name: Path `name` is required."
  else Val tt.

(** [doc.save()] on a new document: validation, then an insert that the
    unique index on [email] may refuse. *)
Definition save_new (doc : UserModel.user) : M unit :=
  fun w =>
    match validate doc with
    | Exn msg => (Exn msg, w)
    | Val _ =>
        if existsb (has_email (UserModel.email doc)) (users w) then
          (Exn "E11000 duplicate key error", w)
        else
          (Val tt, {| users := (users w ++ [doc])%list; outbox := outbox w |})
    end.

(** [new UserModel(init)] in the current world. *)
Definition construct (i : UserModel.user_init) : M UserModel.user :=
  fun w => (Val (UserModel.new_UserModel (fresh_id (users w)) i), w).

(** ** What a handler reads from outside *)

(** [crypto.randomUUID()]: 36 characters. *)
Record uuid : Type := mkUuid {
  uuid_text : string;
  uuid_length : String.length uuid_text = 36%nat
}.

(** The identity provider's reply to the user-info call. *)
Record profile : Type := mkProfile {
  g_email : field;
  g_name : field
}.

Record runtime : Type := mkRuntime {
  now : Z;                                   (* Date.now() *)
  randomUUID : uuid;                         (* crypto.randomUUID() *)
  salt : string;                             (* the salt bcrypt draws *)
  smtp_up : bool;                            (* does sendMail resolve *)
  token_endpoint : field -> res field;       (* POST oauth2.googleapis.com/token *)
  userinfo_endpoint : string -> res profile  (* GET googleapis.com/oauth2/v1/userinfo *)
}.

(** [process.env]. *)
Record process_env : Type := mkEnv {
  JWT_SECRET : string;
  SENDER_EMAIL : string;
  GOOGLE_CLIENT_ID : string;
  GOOGLE_CLIENT_SECRET : string;
  GOOGLE_REDIRECT_URI : string
}.

(** Library functions the controllers call on strings. *)
Class Library : Type := mkLibrary {
  bcrypt_hash : string -> string -> string;      (* password, salt *)
  bcrypt_compare : string -> string -> bool;     (* password, stored hash *)
  URLSearchParams_toString : list (string * string) -> string
}.

(** [transporter.sendMail(mailOptions)]. *)
Definition sendMail (rt : runtime) (m : mail) : M unit :=
  fun w =>
    if smtp_up rt then
      (Val tt, {| users := users w; outbox := (outbox w ++ [m])%list |})
    else (Exn "connect ECONNREFUSED", w).

(** [jwt.verify(token, secret)] at clock [now] (ms). *)
Definition jwt_verify (c : cookie_value) (secret : string) (now : Z)
  : res claims :=
  match c with
  | Garbage _ => Exn "jwt malformed"
  | Signed t =>
      if negb (String.eqb (signed_with t) secret) then Exn "invalid signature"
      else if exp t <=? now / 1000 then Exn "jwt expired"
      else Val (payload t)
  end.

Definition minutes_15 : Z := 1000 * 60 * 15.

Section Controllers.

Context {lib : Library}.
Variable env : process_env.
Variable rt : runtime.

(** *** controllers/Auth.js *)

Definition register (name email password : field) : M reply :=
  if falsy name || falsy email || falsy password then
    ret (json false (Some "Missing Details"))
  else
    try_catch
      (existingUser <- findOne email ;;
       match existingUser with
       | Some _ => ret (json false (Some "User already exists"))
       | None =>
           let hashedPass := bcrypt_hash (text password) (salt rt) in
           let verifyToken := uuid_text (randomUUID rt) in
           user <- construct
                     {| UserModel.i_email := email;
                        UserModel.i_name := name;
                        UserModel.i_password := Some hashedPass;
                        UserModel.i_verifyToken := Some verifyToken;
                        UserModel.i_verifyTokenExpireAt := Some (now rt + minutes_15);
                        UserModel.i_isAccountVerified := None |} ;;
           let verifyUrl :=
             "http://localhost:5173/verifyAccount?token=" ++ verifyToken
               ++ "&email=" ++ text email in
           save_new user ;;;
           try_catch
             (sendMail rt {| mail_from := SENDER_EMAIL env;
                             mail_to := text email;
                             mail_subject := "Welcome to this website";
                             mail_link := verifyUrl |})
             (fun _ => ret tt) ;;;
           ret (json true None)
       end)
      (fun msg => ret (json false (Some msg))).

Definition verifyAccount (token email : field) : M reply :=
  if falsy token || falsy email then
    ret (json false (Some "Missing details"))
  else
    try_catch
      (user <- findOne email ;;
       match user with
       | None => ret (json false (Some "User not found"))
       | Some user =>
           let matched := String.eqb (UserModel.verifyToken user) (text token) in
           if negb matched then
             ret (json false (Some "Link in not valid"))
           else if UserModel.verifyTokenExpireAt user <? now rt then
             ret (json false (Some "Link is Expired"))
           else
             updateOne email
               (fun u => UserModel.set_verifyTokenExpireAt 0
                           (UserModel.set_verifyToken ""
                              (UserModel.set_isAccountVerified true u))) ;;;
             let jwttoken :=
               jwt_sign {| c_id := Some (UserModel._id user);
                           c_email := None; c_name := None |}
                        (JWT_SECRET env) (now rt) in
             ret (json_with_session jwttoken true (Some "Account verified"))
       end)
      (fun msg => ret (json false (Some msg))).

Definition Signin (email password : field) : M reply :=
  if falsy email || falsy password then
    ret (json false (Some "Email and password are required"))
  else
    try_catch
      (user <- findOne email ;;
       match user with
       | None => ret (json false (Some "Invalid email"))
       | Some user =>
           let isMatch := bcrypt_compare (text password) (UserModel.password user) in
           if negb isMatch then
             ret (json false (Some "Incorrect password"))
           else
             let token :=
               jwt_sign {| c_id := Some (UserModel._id user);
                           c_email := None; c_name := None |}
                        (JWT_SECRET env) (now rt) in
             ret (json_with_session token true None)
       end)
      (fun msg => ret (json false (Some msg))).

Definition Logout : M reply :=
  try_catch
    (ret {| cookie := ClearCookie "token" clear_cookie_options;
            sent := Json true (Some "Logged out") |})
    (fun msg => ret (json false (Some msg))).

Definition isAuthenticated : M reply :=
  try_catch
    (ret (json true None))
    (fun msg => ret (json false (Some msg))).

Definition sendResetToken (email : field) : M reply :=
  if falsy email then
    ret (json false (Some "Email required"))
  else
    try_catch
      (user <- findOne email ;;
       match user with
       | None => ret (json false (Some "User not found"))
       | Some _ =>
           let resetToken := uuid_text (randomUUID rt) in
           updateOne email
             (fun u => UserModel.set_resetTokenExpireAt (now rt + minutes_15)
                         (UserModel.set_resetToken resetToken u)) ;;;
           let verifyUrl :=
             "http://localhost:5173/verifyReset?token=" ++ resetToken
               ++ "&email=" ++ text email in
           try_catch
             (sendMail rt {| mail_from := SENDER_EMAIL env;
                             mail_to := text email;
                             mail_subject := "Password Rest Link";
                             mail_link := verifyUrl |})
             (fun _ => ret tt) ;;;
           ret (json true (Some "Reset link sent to email"))
       end)
      (fun msg => ret (json false (Some msg))).

Definition verifyResetToken (email resetToken : field) : M reply :=
  if falsy email || falsy resetToken then
    ret (json false (Some "Missing Details."))
  else
    try_catch
      (user <- findOne email ;;
       match user with
       | None => ret (json false (Some "User not found."))
       | Some user =>
           if String.eqb (UserModel.resetToken user) ""
              || negb (String.eqb (UserModel.resetToken user) (text resetToken))
           then
             ret (json false (Some "Invalid Link."))
           else if UserModel.resetTokenExpireAt user <? now rt then
             ret (json false (Some "Link expired"))
           else
             save user
               (fun u => UserModel.set_resetTokenExpireAt 0 (UserModel.set_resetToken "" u)) ;;;
             ret (json true (Some "Enter new password"))
       end)
      (fun msg => ret (json false (Some msg))).

Definition resetPassword (email newPassword : field) : M reply :=
  if falsy newPassword then
    ret (json false (Some "New password is required."))
  else
    try_catch
      (user <- findOne email ;;
       match user with
       | None => ret (json false (Some "User not found."))
       | Some user =>
           let hashedPass := bcrypt_hash (text newPassword) (salt rt) in
           save user (UserModel.set_password hashedPass) ;;;
           ret (json true (Some "Password has been reset successfully."))
       end)
      (fun msg => ret (json false (Some msg))).

(** *** controllers/oAuthController.js
    (imported by the router as [googleLogin] and [googleVerifyToken]) *)

Definition googleLogin : M reply :=
  let params :=
    URLSearchParams_toString
      [("client_id", GOOGLE_CLIENT_ID env);
       ("redirect_uri", GOOGLE_REDIRECT_URI env);
       ("response_type", "code");
       ("scope", "email profile")] in
  let googleUrl := "https://accounts.google.com/o/oauth2/v2/auth?" ++ params in
  ret {| cookie := NoCookie; sent := Redirect googleUrl |}.

(** No [try]/[catch] here: a rejected [await] leaves the handler. *)
Definition googleVerifyToken (code : field) : M reply :=
  access_token <- lift (token_endpoint rt code) ;;
  userData <- lift (userinfo_endpoint rt (text access_token)) ;;
  let email := g_email userData in
  let name := g_name userData in
  user <- findOne email ;;
  let token :=
    jwt_sign {| c_id := None; c_email := email; c_name := name |}
             (JWT_SECRET env) (now rt) in
  match user with
  | None =>
      newUser <- construct
                   {| UserModel.i_email := email;
                      UserModel.i_name := name;
                      UserModel.i_password := None;
                      UserModel.i_verifyToken := None;
                      UserModel.i_verifyTokenExpireAt := None;
                      UserModel.i_isAccountVerified := Some true |} ;;
      save_new newUser ;;;
      ret (json_with_session token true (Some "User registered successfully"))
  | Some _ =>
      ret (json_with_session token true (Some "User logged in successfully"))
  end.

(** *** middlewares/userAuth.js *)

Inductive middleware_result : Type :=
| Next (userId : ObjectId)    (* req.body.userId = id; next() *)
| Stop (r : reply).

(** [!token] for the cookie. *)
Definition no_cookie (token : option cookie_value) : bool :=
  match token with
  | None => true
  | Some (Garbage s) => String.eqb s ""
  | Some (Signed _) => false
  end.

Definition userAuth (token : option cookie_value) : middleware_result :=
  match token with
  | None => Stop (json false (Some "Not Authorized Login Again."))
  | Some c =>
      if no_cookie token then
        Stop (json false (Some "Not Authorized Login Again."))
      else
        match jwt_verify c (JWT_SECRET env) (now rt) with
        | Exn msg => Stop (json false (Some msg))
        | Val tokenDecode =>
            match c_id tokenDecode with
            | Some id => Next id
            | None => Stop (json false (Some "Not Authorized Login Again."))
            end
        end
  end.

(** *** routes/authRoutes.js *)

Inductive request : Type :=
| POST_register (name email password : field)
| POST_account_verify (token email : field)
| POST_singin (email password : field)
| POST_logout
| POST_is_auth (token : option cookie_value)
| POST_send_reset_token (email : field)
| POST_verify_reset_token (email resetToken : field)
| POST_reset_password (email newPassword : field)
| POST_oauth_google_login
| POST_oauth_google_callback (code : field).

Definition authRouter (req : request) : M reply :=
  match req with
  | POST_register name email password => register name email password
  | POST_account_verify token email => verifyAccount token email
  | POST_singin email password => Signin email password
  | POST_logout => Logout
  | POST_is_auth token =>
      match userAuth token with
      | Stop r => ret r
      | Next _ => isAuthenticated
      end
  | POST_send_reset_token email => sendResetToken email
  | POST_verify_reset_token email resetToken => verifyResetToken email resetToken
  | POST_reset_password email newPassword => resetPassword email newPassword
  | POST_oauth_google_login => googleLogin
  | POST_oauth_google_callback code => googleVerifyToken code
  end.

End Controllers.

(** The server handling requests one after the other, each with what it
    reads from outside; an uncaught exception does not undo a write. *)
Fixpoint serve {lib : Library} (env : process_env)
  (reqs : list (runtime * request)) (w : world) : world :=
  match reqs with
  | [] => w
  | (rt, req) :: reqs' => serve env reqs' (snd (authRouter env rt req w))
  end.

(** ** The handlers as Express calls them

    The controllers above are the code on a request whose body was
    parsed, in a deployment where the store answers and [JWT_SECRET] is
    set.  [Module Express] gives the same code without these conditions:
    [req.body] may be [undefined] (Express 5 leaves it so when no body was
    parsed), a store call may reject, and [jwt.sign] and [jwt.verify] throw
    when the secret is not set. *)

(** The paths of the parsed body that the controllers read. *)
Record json_body : Type := mkBody {
  b_name : field;
  b_email : field;
  b_password : field;
  b_token : field;
  b_resetToken : field;
  b_newPassword : field
}.

(** How the store answers during one request: a read ([findOne]) or a write
    ([updateOne], [save]) may reject with a message. *)
Record store_state : Type := mkStore {
  read_error : option string;
  write_error : option string
}.

Definition store_up : store_state :=
  {| read_error := None; write_error := None |}.

(** [jwt.sign] tests the secret with [!]; a variable that is not set is
    read as the empty string. *)
Definition jwt_sign_checked (p : claims) (secret : string) (now : Z)
  : res jwt :=
  if String.eqb secret "" then Exn "secretOrPrivateKey must have a value"
  else Val (jwt_sign p secret now).

(** [jwt.verify] decodes the token first and then asks for the secret. *)
Definition jwt_verify_checked (c : cookie_value) (secret : string) (now : Z)
  : res claims :=
  match c with
  | Garbage _ => Exn "jwt malformed"
  | Signed _ =>
      if String.eqb secret "" then Exn "secret or public key must be provided"
      else jwt_verify c secret now
  end.

Inductive route : Type :=
| register_route
| account_verify_route
| singin_route
| logout_route
| is_auth_route
| send_reset_token_route
| verify_reset_token_route
| reset_password_route
| oauth_google_login_route
| oauth_google_callback_route.

(** What the handlers read of an incoming request. *)
Record http_request : Type := mkRequest {
  req_route : route;
  req_body : option json_body;                  (* req.body *)
  req_cookie : option cookie_value;        (* req.cookies.token *)
  req_code : field                         (* req.query.code *)
}.

Module Express.

Section Handlers.

Context {lib : Library}.
Variable env : process_env.
Variable rt : runtime.
Variable st : store_state.

(** *** Store calls that may reject *)

Definition findOne (e : field) : M (option UserModel.user) :=
  match read_error st with
  | Some msg => throw msg
  | None => findOne e
  end.

Definition updateOne (e : field) (f : UserModel.user -> UserModel.user)
  : M unit :=
  match write_error st with
  | Some msg => throw msg
  | None => updateOne e f
  end.

Definition save (doc : UserModel.user)
  (f : UserModel.user -> UserModel.user) : M unit :=
  match write_error st with
  | Some msg => throw msg
  | None => save doc f
  end.

(** Mongoose validates the document before it sends the insert. *)
Definition save_new (doc : UserModel.user) : M unit :=
  match validate doc with
  | Exn msg => throw msg
  | Val _ =>
      match write_error st with
      | Some msg => throw msg
      | None => save_new doc
      end
  end.

(** [const {...} = req.body]: a [TypeError] when there is no body. *)
Definition destructure {A : Type} (first_key : string) (b : option json_body)
  (k : json_body -> M A) : M A :=
  match b with
  | None =>
      throw ("Cannot destructure property '" ++ first_key
               ++ "' of 'req.body' as it is undefined.")
  | Some o => k o
  end.

(** *** controllers/Auth.js *)

Definition register (b : option json_body) : M reply :=
  destructure "name" b (fun o =>
  let name := b_name o in
  let email := b_email o in
  let password := b_password o in
  if falsy name || falsy email || falsy password then
    ret (json false (Some "Missing Details"))
  else
    try_catch
      (existingUser <- findOne email ;;
       match existingUser with
       | Some _ => ret (json false (Some "User already exists"))
       | None =>
           let hashedPass := bcrypt_hash (text password) (salt rt) in
           let verifyToken := uuid_text (randomUUID rt) in
           user <- construct
                     {| UserModel.i_email := email;
                        UserModel.i_name := name;
                        UserModel.i_password := Some hashedPass;
                        UserModel.i_verifyToken := Some verifyToken;
                        UserModel.i_verifyTokenExpireAt :=
                          Some (now rt + minutes_15);
                        UserModel.i_isAccountVerified := None |} ;;
           let verifyUrl :=
             "http://localhost:5173/verifyAccount?token=" ++ verifyToken
               ++ "&email=" ++ text email in
           save_new user ;;;
           try_catch
             (sendMail rt {| mail_from := SENDER_EMAIL env;
                             mail_to := text email;
                             mail_subject := "Welcome to this website";
                             mail_link := verifyUrl |})
             (fun _ => ret tt) ;;;
           ret (json true None)
       end)
      (fun msg => ret (json false (Some msg)))).

Definition verifyAccount (b : option json_body) : M reply :=
  destructure "token" b (fun o =>
  let token := b_token o in
  let email := b_email o in
  if falsy token || falsy email then
    ret (json false (Some "Missing details"))
  else
    try_catch
      (user <- findOne email ;;
       match user with
       | None => ret (json false (Some "User not found"))
       | Some user =>
           let matched :=
             String.eqb (UserModel.verifyToken user) (text token) in
           if negb matched then
             ret (json false (Some "Link in not valid"))
           else if UserModel.verifyTokenExpireAt user <? now rt then
             ret (json false (Some "Link is Expired"))
           else
             updateOne email
               (fun u => UserModel.set_verifyTokenExpireAt 0
                           (UserModel.set_verifyToken ""
                              (UserModel.set_isAccountVerified true u))) ;;;
             jwttoken <- lift (jwt_sign_checked
                                 {| c_id := Some (UserModel._id user);
                                    c_email := None; c_name := None |}
                                 (JWT_SECRET env) (now rt)) ;;
             ret (json_with_session jwttoken true (Some "Account verified"))
       end)
      (fun msg => ret (json false (Some msg)))).

Definition Signin (b : option json_body) : M reply :=
  destructure "email" b (fun o =>
  let email := b_email o in
  let password := b_password o in
  if falsy email || falsy password then
    ret (json false (Some "Email and password are required"))
  else
    try_catch
      (user <- findOne email ;;
       match user with
       | None => ret (json false (Some "Invalid email"))
       | Some user =>
           let isMatch :=
             bcrypt_compare (text password) (UserModel.password user) in
           if negb isMatch then
             ret (json false (Some "Incorrect password"))
           else
             token <- lift (jwt_sign_checked
                              {| c_id := Some (UserModel._id user);
                                 c_email := None; c_name := None |}
                              (JWT_SECRET env) (now rt)) ;;
             ret (json_with_session token true None)
       end)
      (fun msg => ret (json false (Some msg)))).

Definition sendResetToken (b : option json_body) : M reply :=
  destructure "email" b (fun o =>
  let email := b_email o in
  if falsy email then
    ret (json false (Some "Email required"))
  else
    try_catch
      (user <- findOne email ;;
       match user with
       | None => ret (json false (Some "User not found"))
       | Some _ =>
           let resetToken := uuid_text (randomUUID rt) in
           updateOne email
             (fun u => UserModel.set_resetTokenExpireAt (now rt + minutes_15)
                         (UserModel.set_resetToken resetToken u)) ;;;
           let verifyUrl :=
             "http://localhost:5173/verifyReset?token=" ++ resetToken
               ++ "&email=" ++ text email in
           try_catch
             (sendMail rt {| mail_from := SENDER_EMAIL env;
                             mail_to := text email;
                             mail_subject := "Password Rest Link";
                             mail_link := verifyUrl |})
             (fun _ => ret tt) ;;;
           ret (json true (Some "Reset link sent to email"))
       end)
      (fun msg => ret (json false (Some msg)))).

Definition verifyResetToken (b : option json_body) : M reply :=
  destructure "email" b (fun o =>
  let email := b_email o in
  let resetToken := b_resetToken o in
  if falsy email || falsy resetToken then
    ret (json false (Some "Missing Details."))
  else
    try_catch
      (user <- findOne email ;;
       match user with
       | None => ret (json false (Some "User not found."))
       | Some user =>
           if String.eqb (UserModel.resetToken user) ""
              || negb (String.eqb (UserModel.resetToken user)
                         (text resetToken))
           then
             ret (json false (Some "Invalid Link."))
           else if UserModel.resetTokenExpireAt user <? now rt then
             ret (json false (Some "Link expired"))
           else
             save user
               (fun u => UserModel.set_resetTokenExpireAt 0
                           (UserModel.set_resetToken "" u)) ;;;
             ret (json true (Some "Enter new password"))
       end)
      (fun msg => ret (json false (Some msg)))).

Definition resetPassword (b : option json_body) : M reply :=
  destructure "email" b (fun o =>
  let email := b_email o in
  let newPassword := b_newPassword o in
  if falsy newPassword then
    ret (json false (Some "New password is required."))
  else
    try_catch
      (user <- findOne email ;;
       match user with
       | None => ret (json false (Some "User not found."))
       | Some user =>
           let hashedPass := bcrypt_hash (text newPassword) (salt rt) in
           save user (UserModel.set_password hashedPass) ;;;
           ret (json true (Some "Password has been reset successfully."))
       end)
      (fun msg => ret (json false (Some msg)))).

(** *** controllers/oAuthController.js *)

Definition googleVerifyToken (code : field) : M reply :=
  access_token <- lift (token_endpoint rt code) ;;
  userData <- lift (userinfo_endpoint rt (text access_token)) ;;
  let email := g_email userData in
  let name := g_name userData in
  user <- findOne email ;;
  token <- lift (jwt_sign_checked
                   {| c_id := None; c_email := email; c_name := name |}
                   (JWT_SECRET env) (now rt)) ;;
  match user with
  | None =>
      newUser <- construct
                   {| UserModel.i_email := email;
                      UserModel.i_name := name;
                      UserModel.i_password := None;
                      UserModel.i_verifyToken := None;
                      UserModel.i_verifyTokenExpireAt := None;
                      UserModel.i_isAccountVerified := Some true |} ;;
      save_new newUser ;;;
      ret (json_with_session token true (Some "User registered successfully"))
  | Some _ =>
      ret (json_with_session token true (Some "User logged in successfully"))
  end.

(** *** middlewares/userAuth.js *)

(** [req.body.userId = tokenDecode.id] needs a body to write into. *)
Definition userAuth (token : option cookie_value) (b : option json_body)
  : middleware_result :=
  match token with
  | None => Stop (json false (Some "Not Authorized Login Again."))
  | Some c =>
      if no_cookie token then
        Stop (json false (Some "Not Authorized Login Again."))
      else
        match jwt_verify_checked c (JWT_SECRET env) (now rt) with
        | Exn msg => Stop (json false (Some msg))
        | Val tokenDecode =>
            match c_id tokenDecode with
            | Some id =>
                match b with
                | Some _ => Next id
                | None =>
                    Stop (json false
                            (Some "Cannot set properties of undefined (setting 'userId')"))
                end
            | None => Stop (json false (Some "Not Authorized Login Again."))
            end
        end
  end.

(** *** routes/authRoutes.js *)

Definition app (req : http_request) : M reply :=
  match req_route req with
  | register_route => register (req_body req)
  | account_verify_route => verifyAccount (req_body req)
  | singin_route => Signin (req_body req)
  | logout_route => Logout
  | is_auth_route =>
      match userAuth (req_cookie req) (req_body req) with
      | Stop r => ret r
      | Next _ => isAuthenticated
      end
  | send_reset_token_route => sendResetToken (req_body req)
  | verify_reset_token_route => verifyResetToken (req_body req)
  | reset_password_route => resetPassword (req_body req)
  | oauth_google_login_route => googleLogin env
  | oauth_google_callback_route => googleVerifyToken (req_code req)
  end.

End Handlers.

End Express.

(** A request of the first router as Express receives it: with its body
    parsed. *)
Definition empty_body : json_body :=
  {| b_name := None; b_email := None; b_password := None;
     b_token := None; b_resetToken := None; b_newPassword := None |}.

Definition with_body (r : route) (o : json_body) : http_request :=
  {| req_route := r; req_body := Some o; req_cookie := None;
     req_code := None |}.

Definition as_http (req : request) : http_request :=
  match req with
  | POST_register name email password =>
      with_body register_route
        {| b_name := name; b_email := email; b_password := password;
           b_token := None; b_resetToken := None; b_newPassword := None |}
  | POST_account_verify token email =>
      with_body account_verify_route
        {| b_name := None; b_email := email; b_password := None;
           b_token := token; b_resetToken := None; b_newPassword := None |}
  | POST_singin email password =>
      with_body singin_route
        {| b_name := None; b_email := email; b_password := password;
           b_token := None; b_resetToken := None; b_newPassword := None |}
  | POST_logout => with_body logout_route empty_body
  | POST_is_auth token =>
      {| req_route := is_auth_route; req_body := Some empty_body;
         req_cookie := token; req_code := None |}
  | POST_send_reset_token email =>
      with_body send_reset_token_route
        {| b_name := None; b_email := email; b_password := None;
           b_token := None; b_resetToken := None; b_newPassword := None |}
  | POST_verify_reset_token email resetToken =>
      with_body verify_reset_token_route
        {| b_name := None; b_email := email; b_password := None;
           b_token := None; b_resetToken := resetToken;
           b_newPassword := None |}
  | POST_reset_password email newPassword =>
      with_body reset_password_route
        {| b_name := None; b_email := email; b_password := None;
           b_token := None; b_resetToken := None;
           b_newPassword := newPassword |}
  | POST_oauth_google_login => with_body oauth_google_login_route empty_body
  | POST_oauth_google_callback code =>
      {| req_route := oauth_google_callback_route;
         req_body := Some empty_body; req_cookie := None; req_code := code |}
  end.

(** The routes whose controller destructures [req.body]. *)
Definition reads_body (r : route) : bool :=
  match r with
  | register_route | account_verify_route | singin_route
  | send_reset_token_route | verify_reset_token_route
  | reset_password_route => true
  | _ => false
  end.

(** ** Reading a reply *)

Definition is_success (r : reply) : bool :=
  match sent r with
  | Json true _ => true
  | _ => false
  end.

Definition is_failure (r : reply) : bool :=
  match sent r with
  | Json false _ => true
  | _ => false
  end.

Definition sets_session (r : reply) : option jwt :=
  match cookie r with
  | SetCookie "token" t _ => Some t
  | _ => None
  end.

(** [UserModel.findOne({email})] as a function of the collection. *)
Definition lookup (e : string) (c : collection) : option UserModel.user :=
  find (has_email e) c.

(** How many documents carry the address [e]. *)
Definition count_email (e : string) (c : collection) : nat :=
  length (filter (has_email e) c).

(** The primary key is unique. *)
Definition unique_ids (c : collection) : Prop :=
  NoDup (map UserModel._id c).

(** What a successful consumption writes. *)
Definition verified (u : UserModel.user) : UserModel.user :=
  UserModel.set_verifyTokenExpireAt 0
    (UserModel.set_verifyToken "" (UserModel.set_isAccountVerified true u)).

Definition reset_consumed (u : UserModel.user) : UserModel.user :=
  UserModel.set_resetTokenExpireAt 0 (UserModel.set_resetToken "" u).

Definition reset_issued (t : string) (expires : Z) (u : UserModel.user)
  : UserModel.user :=
  UserModel.set_resetTokenExpireAt expires (UserModel.set_resetToken t u).

(** ** What the flows build *)

Section Built.

Context {lib : Library}.
Variable env : process_env.
Variable rt : runtime.

(** The session [Signin] and [verifyAccount] issue for a document. *)
Definition session_for (u : UserModel.user) : jwt :=
  jwt_sign {| c_id := Some (UserModel._id u); c_email := None; c_name := None |}
           (JWT_SECRET env) (now rt).

(** The session [googleVerifyToken] issues for a profile. *)
Definition oauth_session (p : profile) : jwt :=
  jwt_sign {| c_id := None; c_email := g_email p; c_name := g_name p |}
           (JWT_SECRET env) (now rt).

(** The document [register] builds. *)
Definition registered (n e p : string) (c : collection) : UserModel.user :=
  {| UserModel._id := fresh_id c;
     UserModel.email := e;
     UserModel.name := n;
     UserModel.password := bcrypt_hash p (salt rt);
     UserModel.verifyToken := uuid_text (randomUUID rt);
     UserModel.verifyTokenExpireAt := now rt + minutes_15;
     UserModel.isAccountVerified := false;
     UserModel.resetToken := "";
     UserModel.resetTokenExpireAt := 0 |}.


Definition welcome_mail (e : string) : mail :=
  {| mail_from := SENDER_EMAIL env;
     mail_to := e;
     mail_subject := "Welcome to this website";
     mail_link := "http://localhost:5173/verifyAccount?token="
                    ++ uuid_text (randomUUID rt) ++ "&email=" ++ e |}.

Definition reset_mail (e : string) : mail :=
  {| mail_from := SENDER_EMAIL env;
     mail_to := e;
     mail_subject := "Password Rest Link";
     mail_link := "http://localhost:5173/verifyReset?token="
                    ++ uuid_text (randomUUID rt) ++ "&email=" ++ e |}.

(** The outbox after one attempt to send [m]. *)
Definition delivered (m : mail) (o : list mail) : list mail :=
  if smtp_up rt then (o ++ [m])%list else o.

End Built.

(** ** Sample data for the closed examples *)

Definition sample_library : Library :=
  {| bcrypt_hash := fun p s => "$2a$10$" ++ s ++ "." ++ p;
     bcrypt_compare := fun p h => String.eqb h ("$2a$10$" ++ "salt" ++ "." ++ p);
     URLSearchParams_toString :=
       fun l => String.concat "&" (map (fun kv => fst kv ++ "=" ++ snd kv) l) |}.

Definition sample_env : process_env :=
  {| JWT_SECRET := "s3cr3t";
     SENDER_EMAIL := "noreply@x.com";
     GOOGLE_CLIENT_ID := "client";
     GOOGLE_CLIENT_SECRET := "hush";
     GOOGLE_REDIRECT_URI := "http://localhost:4000/api/auth/oauth/google/callback" |}.

Definition uuid_a : uuid :=
  {| uuid_text := "123e4567-e89b-42d3-a456-426614174000";
     uuid_length := eq_refl |}.

Definition uuid_b : uuid :=
  {| uuid_text := "9b2f0c1e-7a54-4c1d-8e0f-5d3a6b7c8d9e";
     uuid_length := eq_refl |}.

(** An identity provider that is up and knows one account. *)
Definition google_up (code : field) : res field := Val (Some "ya29.token").
Definition google_profile (access_token : string) : res profile :=
  Val {| g_email := Some "bo@x.com"; g_name := Some "Bo" |}.

(** An identity provider that answers the code exchange with a 400. *)
Definition google_refuses (code : field) : res field :=
  Exn "Request failed with status code 400".

Definition sample_rt (t : Z) (u : uuid) : runtime :=
  {| now := t; randomUUID := u; salt := "salt"; smtp_up := true;
     token_endpoint := google_up; userinfo_endpoint := google_profile |}.

Definition sample_rt_idp_down (t : Z) : runtime :=
  {| now := t; randomUUID := uuid_a; salt := "salt"; smtp_up := true;
     token_endpoint := google_refuses; userinfo_endpoint := google_profile |}.

(** Al has registered at time 1000 and not verified yet; a reset was
    requested for him at time 2000. *)
Definition al : UserModel.user :=
  {| UserModel._id := 1%nat;
     UserModel.email := "al@x.com";
     UserModel.name := "Al";
     UserModel.password := "$2a$10$salt.pw1";
     UserModel.verifyToken := uuid_text uuid_a;
     UserModel.verifyTokenExpireAt := 1000 + minutes_15;
     UserModel.isAccountVerified := false;
     UserModel.resetToken := uuid_text uuid_b;
     UserModel.resetTokenExpireAt := 2000 + minutes_15 |}.

Definition sample_world : world := {| users := [al]; outbox := [] |}.

(** Al after he has verified, and after he has consumed his reset link. *)
Definition world_al_verified : world :=
  {| users := [verified al]; outbox := [] |}.

Definition world_al_reset_consumed : world :=
  {| users := [reset_consumed al]; outbox := [] |}.

(** A second registration of Al's address. *)
Definition register_al_again : request :=
  POST_register (Some "Alan") (Some "al@x.com") (Some "pw2").

Definition world_after_register_al_again : world :=
  snd (authRouter (lib := sample_library) sample_env (sample_rt 5000 uuid_b)
         register_al_again sample_world).

(** Two reset links are issued for Al, at times 3000 and 4000. *)
Definition world_after_first_reset : world :=
  snd (sendResetToken sample_env (sample_rt 3000 uuid_a)
         (Some "al@x.com") sample_world).

Definition world_after_second_reset : world :=
  snd (sendResetToken sample_env (sample_rt 4000 uuid_b)
         (Some "al@x.com") world_after_first_reset).

(** Bo completes the OAuth login at times 5000 and 6000. *)
Definition bo : profile := {| g_email := Some "bo@x.com"; g_name := Some "Bo" |}.

Definition bo_session : jwt := oauth_session sample_env (sample_rt 5000 uuid_a) bo.

Definition world_after_first_oauth : world :=
  snd (googleVerifyToken sample_env (sample_rt 5000 uuid_a)
         (Some "4/0AbCd") sample_world).


(** ** Invariants and relations between collections *)

(** The unique index on [email]. *)
Definition unique_emails (c : collection) : Prop :=
  NoDup (map UserModel.email c).

(** What the schema and the flows keep true of a stored document: the
    required paths are there, and a path that holds no token has expiry 0. *)
Definition valid_doc (u : UserModel.user) : Prop :=
  UserModel.email u <> ""
  /\ UserModel.name u <> ""
  /\ (UserModel.verifyToken u = "" -> UserModel.verifyTokenExpireAt u = 0)
  /\ (UserModel.resetToken u = "" -> UserModel.resetTokenExpireAt u = 0).

Definition valid_collection (c : collection) : Prop :=
  unique_ids c /\ unique_emails c /\ Forall valid_doc c.

(** A document keeps its key, its address and its name. *)
Definition same_identity (u u' : UserModel.user) : Prop :=
  UserModel._id u' = UserModel._id u
  /\ UserModel.email u' = UserModel.email u
  /\ UserModel.name u' = UserModel.name u.

(** A verified document stays verified. *)
Definition stays_verified (u u' : UserModel.user) : Prop :=
  UserModel.isAccountVerified u = true ->
  UserModel.isAccountVerified u' = true.

Definition same_password (u u' : UserModel.user) : Prop :=
  UserModel.password u' = UserModel.password u.

(** [c'] holds the documents of [c], in the same order and related by [R],
    followed by at most one new document. *)
Definition grows_from (R : UserModel.user -> UserModel.user -> Prop)
  (c c' : collection) : Prop :=
  exists kept added,
    c' = (kept ++ added)%list
    /\ Forall2 R c kept
    /\ (length added <= 1)%nat.

(** The address a request is about: the [email] field of its body, and for
    the OAuth callback the address of the profile the provider returns. *)
Definition addressee (rt : runtime) (req : request) : field :=
  match req with
  | POST_register _ email _ => email
  | POST_account_verify _ email => email
  | POST_singin email _ => email
  | POST_send_reset_token email => email
  | POST_verify_reset_token email _ => email
  | POST_reset_password email _ => email
  | POST_oauth_google_callback code =>
      match token_endpoint rt code with
      | Val access_token =>
          match userinfo_endpoint rt (text access_token) with
          | Val userData => g_email userData
          | Exn _ => None
          end
      | Exn _ => None
      end
  | POST_logout | POST_is_auth _ | POST_oauth_google_login => None
  end.

Definition is_reset_password (req : request) : bool :=
  match req with
  | POST_reset_password _ _ => true
  | _ => false
  end.

(** The same run with the mail server up or down. *)
Definition with_smtp (b : bool) (rt : runtime) : runtime :=
  {| now := now rt; randomUUID := randomUUID rt; salt := salt rt;
     smtp_up := b;
     token_endpoint := token_endpoint rt;
     userinfo_endpoint := userinfo_endpoint rt |}.

(** The same run at another time. *)
Definition at_time (t : Z) (rt : runtime) : runtime :=
  {| now := t; randomUUID := randomUUID rt; salt := salt rt;
     smtp_up := smtp_up rt;
     token_endpoint := token_endpoint rt;
     userinfo_endpoint := userinfo_endpoint rt |}.

(** The reply of a run, an uncaught exception read as no reply. *)
Definition reply_of (run : res reply * world) : option reply :=
  match fst run with
  | Val r => Some r
  | Exn _ => None
  end.

(** ** What one request may do to the collection *)

(** The updates the controllers apply to a stored document. *)
Inductive doc_update : (UserModel.user -> UserModel.user) -> Prop :=
| upd_verified : doc_update verified
| upd_reset_issued (t : uuid) (expires : Z) :
    doc_update (reset_issued (uuid_text t) expires)
| upd_reset_consumed : doc_update reset_consumed
| upd_password (hash : string) : doc_update (UserModel.set_password hash).

(** The collection after a request about the address [a]: unchanged; or one
    of the updates above applied to the document of that address, through
    the address or through the key of the document found under it; or one
    new document for that address, which passed the validators and the
    unique index, under a fresh key. *)
Inductive transition (a : field) (c : collection) : collection -> Prop :=
| t_same : transition a c c
| t_update_by_email (e : string) (f : UserModel.user -> UserModel.user) :
    a = Some e -> doc_update f ->
    transition a c (update_first (has_email e) f c)
| t_update_by_id (e : string) (u : UserModel.user)
    (f : UserModel.user -> UserModel.user) :
    a = Some e -> lookup e c = Some u -> doc_update f ->
    transition a c (update_first (has_id (UserModel._id u)) f c)
| t_insert (e : string) (d : UserModel.user) :
    a = Some e ->
    UserModel.email d = e ->
    UserModel._id d = fresh_id c ->
    validate d = Val tt ->
    existsb (has_email e) c = false ->
    (UserModel.verifyToken d = "" -> UserModel.verifyTokenExpireAt d = 0) ->
    UserModel.resetToken d = "" ->
    UserModel.resetTokenExpireAt d = 0 ->
    transition a c (c ++ [d])%list.

(** ** More sample data *)

(** Cy registers at time 5000 with the mail server down. *)
Definition rt_cy : runtime := with_smtp false (sample_rt 5000 uuid_b).

Definition cy : UserModel.user :=
  registered (lib := sample_library) rt_cy "Cy" "cy@x.com" "pw3" [al].

Definition world_with_cy : world :=
  {| users := [al; cy]; outbox := [] |}.

(** An identity provider whose profile lacks the name. *)
Definition google_profile_no_name (access_token : string) : res profile :=
  Val {| g_email := Some "di@x.com"; g_name := None |}.

Definition sample_rt_no_name (t : Z) : runtime :=
  {| now := t; randomUUID := uuid_a; salt := "salt"; smtp_up := true;
     token_endpoint := google_up;
     userinfo_endpoint := google_profile_no_name |}.

(** A day of requests, handled from the empty collection. *)
Definition empty_world : world := {| users := []; outbox := [] |}.

Definition sample_requests : list (runtime * request) :=
  [ (sample_rt 1000 uuid_a,
     POST_register (Some "Al") (Some "al@x.com") (Some "pw1"));
    (sample_rt 2000 uuid_b, POST_send_reset_token (Some "al@x.com"));
    (sample_rt 3000 uuid_a,
     POST_account_verify (Some (uuid_text uuid_a)) (Some "al@x.com"));
    (sample_rt 5000 uuid_a, POST_oauth_google_callback (Some "4/0AbCd"));
    (sample_rt 6000 uuid_a,
     POST_reset_password (Some "al@x.com") (Some "pw9")) ].

(** Requests about Al after he has verified. *)
Definition requests_after_verification : list (runtime * request) :=
  [ (sample_rt 6000 uuid_b, POST_send_reset_token (Some "al@x.com"));
    (sample_rt 7000 uuid_a,
     POST_register (Some "Alan") (Some "al@x.com") (Some "pw2"));
    (sample_rt 8000 uuid_a,
     POST_reset_password (Some "al@x.com") (Some "pw9")) ].

(** ** Sample data for the handlers as Express calls them *)

(** A deployment whose [.env] does not set [JWT_SECRET]. *)
Definition env_without_secret : process_env :=
  {| JWT_SECRET := "";
     SENDER_EMAIL := "noreply@x.com";
     GOOGLE_CLIENT_ID := "client";
     GOOGLE_CLIENT_SECRET := "hush";
     GOOGLE_REDIRECT_URI := "http://localhost:4000/api/auth/oauth/google/callback" |}.

(** A store that is not connected. *)
Definition store_down : store_state :=
  {| read_error := Some "Operation `users.findOne()` buffering timed out after 10000ms";
     write_error := Some "Operation `users.updateOne()` buffering timed out after 10000ms" |}.

Definition signin_body (email password : field) : json_body :=
  {| b_name := None; b_email := email; b_password := password;
     b_token := None; b_resetToken := None; b_newPassword := None |}.

Definition verify_body (token email : field) : json_body :=
  {| b_name := None; b_email := email; b_password := None;
     b_token := token; b_resetToken := None; b_newPassword := None |}.

(** [/is-auth] with Al's session of time 5000, with and without a body. *)
Definition al_session : jwt := session_for sample_env (sample_rt 5000 uuid_a) al.

Definition is_auth_call (b : option json_body) : http_request :=
  {| req_route := is_auth_route; req_body := b;
     req_cookie := Some (Signed al_session); req_code := None |}.

(** A store that reads but refuses to write. *)
Definition store_read_only : store_state :=
  {| read_error := None;
     write_error := Some "not primary" |}.

Definition verify_al : http_request :=
  with_body account_verify_route
    (verify_body (Some (uuid_text uuid_a)) (Some "al@x.com")).

Definition signin_without_body : http_request :=
  {| req_route := singin_route; req_body := None; req_cookie := None;
     req_code := None |}.

(** [/register] without a body. *)
Definition register_without_body : http_request :=
  {| req_route := register_route; req_body := None; req_cookie := None;
     req_code := None |}.

(** * Facts about the collection *)

Local Open Scope list_scope.

Section CollectionFacts.

Implicit Types (c : collection) (u : UserModel.user) (e : string).

Lemma falsy_false (x : field) :
  falsy x = false -> exists s, x = Some s /\ s <> "".
Proof.
  destruct x as [s|]; simpl; [|discriminate].
  intros H. exists s. split; [reflexivity|]. now apply String.eqb_neq.
Qed.

Lemma falsy_some s : s <> "" -> falsy (Some s) = false.
Proof. intros H. simpl. now apply String.eqb_neq. Qed.

Lemma uuid_nonempty (t : uuid) : uuid_text t <> "".
Proof.
  intros H. pose proof (uuid_length t) as L. rewrite H in L. discriminate L.
Qed.

Lemma lookup_has_email e c u : lookup e c = Some u -> UserModel.email u = e.
Proof.
  unfold lookup. intros H. apply find_some in H. destruct H as [_ H].
  now apply String.eqb_eq in H.
Qed.

Lemma lookup_in e c u : lookup e c = Some u -> In u c.
Proof. unfold lookup. intros H. now apply find_some in H. Qed.

Lemma lookup_none_existsb e c :
  lookup e c = None -> existsb (has_email e) c = false.
Proof.
  unfold lookup. induction c as [|v c IH]; simpl; [reflexivity|].
  destruct (has_email e v); [discriminate|]. exact IH.
Qed.

Lemma lookup_none_count e c : lookup e c = None -> count_email e c = 0%nat.
Proof.
  unfold lookup, count_email. induction c as [|v c IH]; simpl; [reflexivity|].
  destruct (has_email e v); [discriminate|]. exact IH.
Qed.

Lemma lookup_app_none e c u :
  lookup e c = None -> UserModel.email u = e -> lookup e (c ++ [u]) = Some u.
Proof.
  unfold lookup. intros Hn He. induction c as [|v c IH]; simpl in *.
  - unfold has_email. rewrite He, String.eqb_refl. reflexivity.
  - destruct (has_email e v); [discriminate|]. now apply IH.
Qed.

Lemma count_app_none e c u :
  lookup e c = None -> UserModel.email u = e ->
  count_email e (c ++ [u]) = 1%nat.
Proof.
  intros Hn He. unfold count_email. rewrite filter_app, length_app.
  fold (count_email e c). rewrite (lookup_none_count _ _ Hn). simpl.
  unfold has_email. rewrite He, String.eqb_refl. reflexivity.
Qed.

(** Updating through the address that found the document. *)
Lemma lookup_update_by_email e c u (f : UserModel.user -> UserModel.user) :
  (forall v, UserModel.email (f v) = UserModel.email v) ->
  lookup e c = Some u ->
  lookup e (update_first (has_email e) f c) = Some (f u).
Proof.
  unfold lookup. intros Hf. induction c as [|v c IH]; simpl; [discriminate|].
  destruct (has_email e v) eqn:Hv; simpl.
  - intros [= ->]. unfold has_email in *. rewrite Hf, Hv. reflexivity.
  - rewrite Hv. exact IH.
Qed.

(** Updating through the primary key of the document that was found. *)
Lemma lookup_update_by_id e c u (f : UserModel.user -> UserModel.user) :
  unique_ids c ->
  (forall v, UserModel.email (f v) = UserModel.email v) ->
  lookup e c = Some u ->
  lookup e (update_first (has_id (UserModel._id u)) f c) = Some (f u).
Proof.
  unfold lookup, unique_ids. intros Hu Hf.
  induction c as [|v c IH]; simpl; [discriminate|].
  inversion Hu as [|? ? Hnotin Hu']; subst.
  destruct (has_email e v) eqn:Hv.
  - intros [= ->]. unfold has_id. rewrite Nat.eqb_refl. simpl.
    unfold has_email in *. rewrite Hf, Hv. reflexivity.
  - intros Hfind. destruct (has_id (UserModel._id u) v) eqn:Hid.
    + exfalso. apply Hnotin. unfold has_id in Hid.
      apply Nat.eqb_eq in Hid. rewrite Hid.
      apply in_map. now apply find_some in Hfind.
    + simpl. rewrite Hv. now apply IH.
Qed.

Lemma update_first_ids (p : UserModel.user -> bool)
  (f : UserModel.user -> UserModel.user) c :
  (forall v, UserModel._id (f v) = UserModel._id v) ->
  map UserModel._id (update_first p f c) = map UserModel._id c.
Proof.
  intros Hf. induction c as [|v c IH]; simpl; [reflexivity|].
  destruct (p v); simpl; [now rewrite Hf|now rewrite IH].
Qed.

Lemma update_first_length (p : UserModel.user -> bool)
  (f : UserModel.user -> UserModel.user) c :
  length (update_first p f c) = length c.
Proof.
  induction c as [|v c IH]; simpl; [reflexivity|].
  destruct (p v); simpl; [reflexivity|now rewrite IH].
Qed.

Lemma fresh_id_not_in c : ~ In (fresh_id c) (map UserModel._id c).
Proof.
  unfold fresh_id. intros H.
  assert (Hle : (list_max (map UserModel._id c) <= list_max (map UserModel._id c))%nat)
    by reflexivity.
  rewrite list_max_le in Hle. rewrite Forall_forall in Hle.
  specialize (Hle _ H). lia.
Qed.

Lemma unique_ids_insert c (i : UserModel.user_init) :
  unique_ids c ->
  unique_ids (c ++ [UserModel.new_UserModel (fresh_id c) i]).
Proof.
  unfold unique_ids. intros Hu. rewrite map_app. simpl.
  apply NoDup_app; [exact Hu|repeat constructor; intros []|].
  intros x Hx [<-|[]]. now apply (fresh_id_not_in c).
Qed.

End CollectionFacts.

(** * Facts about the flows *)

Ltac unfold_js :=
  unfold bind, try_catch, ret, throw, lift, findOne, updateOne, save,
    save_new, construct, sendMail in *.

Section TokenLifecycle.

Context {lib : Library}.
Variable env : process_env.

Lemma verified_fields (u : UserModel.user) :
  UserModel.verifyToken (verified u) = ""
  /\ UserModel.verifyTokenExpireAt (verified u) = 0
  /\ UserModel.isAccountVerified (verified u) = true
  /\ UserModel.email (verified u) = UserModel.email u
  /\ UserModel._id (verified u) = UserModel._id u.
Proof. repeat split. Qed.

Lemma reset_consumed_fields (u : UserModel.user) :
  UserModel.resetToken (reset_consumed u) = ""
  /\ UserModel.resetTokenExpireAt (reset_consumed u) = 0
  /\ UserModel.email (reset_consumed u) = UserModel.email u
  /\ UserModel._id (reset_consumed u) = UserModel._id u.
Proof. repeat split. Qed.

(** The decision table of [verifyAccount] once both fields are present. *)
Lemma verifyAccount_present rt (t e : string) (w : world) :
  t <> "" -> e <> "" ->
  verifyAccount env rt (Some t) (Some e) w =
    match lookup e (users w) with
    | None => (Val (json false (Some "User not found")), w)
    | Some u =>
        if negb (String.eqb (UserModel.verifyToken u) t) then
          (Val (json false (Some "Link in not valid")), w)
        else if UserModel.verifyTokenExpireAt u <? now rt then
          (Val (json false (Some "Link is Expired")), w)
        else
          (Val (json_with_session
                  (jwt_sign {| c_id := Some (UserModel._id u);
                               c_email := None; c_name := None |}
                            (JWT_SECRET env) (now rt))
                  true (Some "Account verified")),
           {| users := update_first (has_email e) verified (users w);
              outbox := outbox w |})
    end.
Proof.
  intros Ht He. unfold verifyAccount.
  rewrite (falsy_some _ Ht), (falsy_some _ He). cbn [orb].
  unfold_js. unfold lookup. cbn [text].
  destruct (find (has_email e) (users w)) as [u|]; [|reflexivity].
  destruct (String.eqb (UserModel.verifyToken u) t); cbn [negb];
    [|reflexivity].
  destruct (UserModel.verifyTokenExpireAt u <? now rt); reflexivity.
Qed.

(** The decision table of [verifyResetToken] once both fields are present. *)
Lemma verifyResetToken_present rt (e t : string) (w : world) :
  e <> "" -> t <> "" ->
  verifyResetToken rt (Some e) (Some t) w =
    match lookup e (users w) with
    | None => (Val (json false (Some "User not found.")), w)
    | Some u =>
        if String.eqb (UserModel.resetToken u) ""
           || negb (String.eqb (UserModel.resetToken u) t) then
          (Val (json false (Some "Invalid Link.")), w)
        else if UserModel.resetTokenExpireAt u <? now rt then
          (Val (json false (Some "Link expired")), w)
        else
          (Val (json true (Some "Enter new password")),
           {| users := update_first (has_id (UserModel._id u)) reset_consumed
                         (users w);
              outbox := outbox w |})
    end.
Proof.
  intros He Ht. unfold verifyResetToken.
  rewrite (falsy_some _ Ht), (falsy_some _ He). cbn [orb].
  unfold_js. unfold lookup. cbn [text].
  destruct (find (has_email e) (users w)) as [u|]; [|reflexivity].
  destruct (String.eqb (UserModel.resetToken u) ""
            || negb (String.eqb (UserModel.resetToken u) t)); [reflexivity|].
  destruct (UserModel.resetTokenExpireAt u <? now rt); reflexivity.
Qed.

(** A failed guard leaves the world alone. *)
Lemma verifyAccount_missing rt token email w :
  falsy token || falsy email = true ->
  verifyAccount env rt token email w =
    (Val (json false (Some "Missing details")), w).
Proof. intros H. unfold verifyAccount. rewrite H. reflexivity. Qed.

Lemma verifyResetToken_missing rt email resetToken w :
  falsy email || falsy resetToken = true ->
  verifyResetToken rt email resetToken w =
    (Val (json false (Some "Missing Details.")), w).
Proof. intros H. unfold verifyResetToken. rewrite H. reflexivity. Qed.

(** What a successful [verifyAccount] tells about its input. *)
Lemma verifyAccount_success_inv rt token email w r w' :
  verifyAccount env rt token email w = (Val r, w') ->
  is_success r = true ->
  exists t e u,
    token = Some t /\ email = Some e /\ t <> "" /\ e <> ""
    /\ lookup e (users w) = Some u
    /\ UserModel.verifyToken u = t
    /\ now rt <= UserModel.verifyTokenExpireAt u
    /\ w' = {| users := update_first (has_email e) verified (users w);
               outbox := outbox w |}.
Proof.
  intros Hrun Hok.
  destruct (falsy token || falsy email) eqn:Hg.
  - rewrite (verifyAccount_missing _ _ _ _ Hg) in Hrun.
    injection Hrun as <- <-. discriminate Hok.
  - apply orb_false_iff in Hg. destruct Hg as [Ht He].
    apply falsy_false in Ht. destruct Ht as (t & -> & Ht).
    apply falsy_false in He. destruct He as (e & -> & He).
    rewrite (verifyAccount_present _ _ _ _ Ht He) in Hrun.
    destruct (lookup e (users w)) as [u|] eqn:Hl;
      [|injection Hrun as <- <-; discriminate Hok].
    destruct (String.eqb (UserModel.verifyToken u) t) eqn:Hm;
      cbn [negb] in Hrun; [|injection Hrun as <- <-; discriminate Hok].
    destruct (UserModel.verifyTokenExpireAt u <? now rt) eqn:Hx;
      [injection Hrun as <- <-; discriminate Hok|].
    injection Hrun as <- <-.
    exists t, e, u. apply String.eqb_eq in Hm. apply Z.ltb_ge in Hx.
    repeat split; assumption.
Qed.

(** What a successful [verifyResetToken] tells about its input. *)
Lemma verifyResetToken_success_inv rt email resetToken w r w' :
  verifyResetToken rt email resetToken w = (Val r, w') ->
  is_success r = true ->
  exists e t u,
    email = Some e /\ resetToken = Some t /\ e <> "" /\ t <> ""
    /\ lookup e (users w) = Some u
    /\ UserModel.resetToken u = t
    /\ now rt <= UserModel.resetTokenExpireAt u
    /\ w' = {| users := update_first (has_id (UserModel._id u)) reset_consumed
                          (users w);
               outbox := outbox w |}.
Proof.
  intros Hrun Hok.
  destruct (falsy email || falsy resetToken) eqn:Hg.
  - rewrite (verifyResetToken_missing _ _ _ _ Hg) in Hrun.
    injection Hrun as <- <-. discriminate Hok.
  - apply orb_false_iff in Hg. destruct Hg as [He Ht].
    apply falsy_false in Ht. destruct Ht as (t & -> & Ht).
    apply falsy_false in He. destruct He as (e & -> & He).
    rewrite (verifyResetToken_present _ _ _ _ He Ht) in Hrun.
    destruct (lookup e (users w)) as [u|] eqn:Hl;
      [|injection Hrun as <- <-; discriminate Hok].
    destruct (String.eqb (UserModel.resetToken u) ""
              || negb (String.eqb (UserModel.resetToken u) t)) eqn:Hm;
      [injection Hrun as <- <-; discriminate Hok|].
    destruct (UserModel.resetTokenExpireAt u <? now rt) eqn:Hx;
      [injection Hrun as <- <-; discriminate Hok|].
    injection Hrun as <- <-.
    apply orb_false_iff in Hm. destruct Hm as [_ Hm].
    apply negb_false_iff, String.eqb_eq in Hm. apply Z.ltb_ge in Hx.
    exists e, t, u. repeat split; assumption.
Qed.

End TokenLifecycle.

(** * Single use of verification and reset tokens *)

Section SingleUse.

Variable env : process_env.

Lemma verifyAccount_single_use rt rt' token email w r w' :
  verifyAccount env rt token email w = (Val r, w') ->
  is_success r = true ->
  (exists u,
      lookup (text email) (users w) = Some u
      /\ users w' = update_first (has_email (text email)) verified (users w)
      /\ lookup (text email) (users w') = Some (verified u))
  /\ verifyAccount env rt' token email w' =
       (Val (json false (Some "Link in not valid")), w').
Proof.
  intros Hrun Hok.
  destruct (verifyAccount_success_inv _ _ _ _ _ _ _ Hrun Hok)
    as (t & e & u & -> & -> & Ht & He & Hl & Htok & _ & ->).
  cbn [text users].
  assert (Hl' : lookup e (update_first (has_email e) verified (users w))
                = Some (verified u)).
  { apply lookup_update_by_email; [reflexivity|exact Hl]. }
  split.
  - exists u. repeat split; assumption.
  - rewrite (verifyAccount_present _ _ _ _ _ Ht He). cbn [users]. rewrite Hl'.
    cbn. destruct t as [|a t']; [contradiction|reflexivity].
Qed.

Lemma verifyResetToken_single_use rt rt' email resetToken w r w' :
  unique_ids (users w) ->
  verifyResetToken rt email resetToken w = (Val r, w') ->
  is_success r = true ->
  (exists u,
      lookup (text email) (users w) = Some u
      /\ users w' = update_first (has_id (UserModel._id u)) reset_consumed
                      (users w)
      /\ lookup (text email) (users w') = Some (reset_consumed u))
  /\ verifyResetToken rt' email resetToken w' =
       (Val (json false (Some "Invalid Link.")), w').
Proof.
  intros Hu Hrun Hok.
  destruct (verifyResetToken_success_inv _ _ _ _ _ _ Hrun Hok)
    as (e & t & u & -> & -> & He & Ht & Hl & Htok & _ & ->).
  cbn [text users].
  assert (Hl' : lookup e (update_first (has_id (UserModel._id u))
                            reset_consumed (users w))
                = Some (reset_consumed u)).
  { apply lookup_update_by_id; [exact Hu|reflexivity|exact Hl]. }
  split.
  - exists u. repeat split; assumption.
  - rewrite (verifyResetToken_present _ _ _ _ He Ht). cbn [users]. rewrite Hl'.
    reflexivity.
Qed.

(** C1.  Single-use tokens.  When [verifyAccount] (resp.
    [verifyResetToken]) consumes a token successfully, the one write it makes
    replaces the user's document by one whose verification (resp. reset)
    token is empty and whose expiry is 0 (for verification the same write
    sets [isAccountVerified]), and the same request sent again, at any later
    time, is answered with "Link in not valid" (resp. "Invalid Link.") and
    changes nothing.  For the reset flow, which writes through the primary
    key of the loaded document, the primary key is taken to be unique. *)
Theorem single_use_tokens :
  forall (rt rt' : runtime) (w w' : world) (r : reply) (a b : field),
    (verifyAccount env rt a b w = (Val r, w') ->
     is_success r = true ->
     (exists u,
         lookup (text b) (users w) = Some u
         /\ users w' = update_first (has_email (text b)) verified (users w)
         /\ lookup (text b) (users w') = Some (verified u)
         /\ UserModel.verifyToken (verified u) = ""
         /\ UserModel.verifyTokenExpireAt (verified u) = 0
         /\ UserModel.isAccountVerified (verified u) = true)
     /\ verifyAccount env rt' a b w' =
          (Val (json false (Some "Link in not valid")), w'))
    /\
    (unique_ids (users w) ->
     verifyResetToken rt a b w = (Val r, w') ->
     is_success r = true ->
     (exists u,
         lookup (text a) (users w) = Some u
         /\ users w' = update_first (has_id (UserModel._id u)) reset_consumed
                         (users w)
         /\ lookup (text a) (users w') = Some (reset_consumed u)
         /\ UserModel.resetToken (reset_consumed u) = ""
         /\ UserModel.resetTokenExpireAt (reset_consumed u) = 0)
     /\ verifyResetToken rt' a b w' =
          (Val (json false (Some "Invalid Link.")), w')).
Proof.
  intros rt rt' w w' r a b. split.
  - intros Hrun Hok.
    destruct (verifyAccount_single_use rt rt' _ _ _ _ _ Hrun Hok)
      as [(u & H1 & H2 & H3) Hagain].
    split; [|exact Hagain]. exists u. repeat split; assumption.
  - intros Hu Hrun Hok.
    destruct (verifyResetToken_single_use rt rt' _ _ _ _ _ Hu Hrun Hok)
      as [(u & H1 & H2 & H3) Hagain].
    split; [|exact Hagain]. exists u. repeat split; assumption.
Qed.

End SingleUse.

(** Al verifies at time 5000 and sends the same link again at time 6000;
    he consumes his reset link at time 7000 and sends it again at 8000. *)
Lemma single_use_tokens_witness :
  verifyAccount sample_env (sample_rt 6000 uuid_b)
    (Some (uuid_text uuid_a)) (Some "al@x.com") world_al_verified
  = (Val (json false (Some "Link in not valid")), world_al_verified)
  /\
  verifyResetToken (sample_rt 8000 uuid_a)
    (Some "al@x.com") (Some (uuid_text uuid_b)) world_al_reset_consumed
  = (Val (json false (Some "Invalid Link.")), world_al_reset_consumed).
Proof.
  split.
  - apply (proj1 (single_use_tokens sample_env
                    (sample_rt 5000 uuid_a) (sample_rt 6000 uuid_b)
                    sample_world world_al_verified
                    (json_with_session
                       (session_for sample_env (sample_rt 5000 uuid_a) al)
                       true (Some "Account verified"))
                    (Some (uuid_text uuid_a)) (Some "al@x.com")));
      reflexivity.
  - apply (proj2 (single_use_tokens sample_env
                    (sample_rt 7000 uuid_a) (sample_rt 8000 uuid_a)
                    sample_world world_al_reset_consumed
                    (json true (Some "Enter new password"))
                    (Some "al@x.com") (Some (uuid_text uuid_b)))).
    + unfold unique_ids. simpl. repeat constructor. intros [].
    + reflexivity.
    + reflexivity.
Defined.

(** * Expiry boundary *)

Section ExpiryBoundary.

Variable env : process_env.








End ExpiryBoundary.


(** * Case analysis of a run *)

(** Case analysis on the innermost test the run in [H] branches on. *)
Ltac branch H :=
  match type of H with
  | context [match ?x with _ => _ end] =>
      lazymatch x with
      | context [match _ with _ => _ end] => fail
      | _ => destruct x eqn:?
      end
  end;
  cbv beta iota in H.

Ltac settle H :=
  repeat branch H;
  try (injection H as <- <-);
  first [reflexivity | discriminate | idtac].

(** * Registration and sign-in *)

Section Credentials.

Context {lib : Library}.
Variable env : process_env.
Variable rt : runtime.

Lemma Signin_missing email password w :
  falsy email || falsy password = true ->
  Signin env rt email password w
  = (Val (json false (Some "Email and password are required")), w).
Proof. intros H. unfold Signin. rewrite H. reflexivity. Qed.



Lemma register_missing name email password w :
  falsy name || falsy email || falsy password = true ->
  register env rt name email password w
  = (Val (json false (Some "Missing Details")), w).
Proof. intros H. unfold register. rewrite H. reflexivity. Qed.

(** The decision table of [register] once the three fields are present. *)
Lemma register_present (n e p : string) w :
  n <> "" -> e <> "" -> p <> "" ->
  register env rt (Some n) (Some e) (Some p) w =
    match lookup e (users w) with
    | Some _ => (Val (json false (Some "User already exists")), w)
    | None =>
        (Val (json true None),
         {| users := users w ++ [registered rt n e p (users w)];
            outbox := delivered rt (welcome_mail env rt e) (outbox w) |})
    end.
Proof.
  intros Hn He Hp. unfold register.
  rewrite (falsy_some _ Hn), (falsy_some _ He), (falsy_some _ Hp).
  cbn [orb]. unfold_js. fold (lookup e (users w)). cbn [text].
  destruct (lookup e (users w)) as [u|] eqn:Hl; [reflexivity|].
  unfold validate, UserModel.new_UserModel. cbn.
  apply String.eqb_neq in Hn, He. rewrite Hn, He.
  rewrite (lookup_none_existsb _ _ Hl).
  unfold delivered. destruct (smtp_up rt); reflexivity.
Qed.

(** C5.  A complete registration request for an address that is already
    registered is answered with "User already exists", and the world is the
    one it found: the stored document keeps every field. *)
Theorem register_conflict :
  forall (name email password : field) (w : world) (u : UserModel.user),
    falsy name || falsy email || falsy password = false ->
    lookup (text email) (users w) = Some u ->
    register env rt name email password w
    = (Val (json false (Some "User already exists")), w)
    /\ lookup (text email)
         (users (snd (register env rt name email password w))) = Some u.
Proof.
  intros name email password w u Hg Hl.
  apply orb_false_iff in Hg. destruct Hg as [Hg Hp].
  apply orb_false_iff in Hg. destruct Hg as [Hn He].
  apply falsy_false in Hn, He, Hp.
  destruct Hn as (n & -> & Hn). destruct He as (e & -> & He).
  destruct Hp as (p & -> & Hp). cbn [text] in *.
  rewrite (register_present _ _ _ _ Hn He Hp), Hl. split; [reflexivity|].
  exact Hl.
Qed.

End Credentials.


(** Al's address is registered a second time. *)
Lemma register_conflict_witness :
  register (lib := sample_library) sample_env (sample_rt 5000 uuid_b)
    (Some "Alan") (Some "al@x.com") (Some "pw2") sample_world
  = (Val (json false (Some "User already exists")), sample_world).
Proof.
  apply (register_conflict (lib := sample_library) sample_env
           (sample_rt 5000 uuid_b)
           (Some "Alan") (Some "al@x.com") (Some "pw2") sample_world al);
    reflexivity.
Defined.

(** * Reissuing a reset token *)

Section Reissue.

Variable env : process_env.

(** The decision table of [sendResetToken] once the email is present. *)
Lemma sendResetToken_present rt (e : string) w :
  e <> "" ->
  sendResetToken env rt (Some e) w =
    match lookup e (users w) with
    | None => (Val (json false (Some "User not found")), w)
    | Some _ =>
        (Val (json true (Some "Reset link sent to email")),
         {| users :=
              update_first (has_email e)
                (reset_issued (uuid_text (randomUUID rt)) (now rt + minutes_15))
                (users w);
            outbox := delivered rt (reset_mail env rt e) (outbox w) |})
    end.
Proof.
  intros He. unfold sendResetToken. rewrite (falsy_some _ He).
  unfold_js. fold (lookup e (users w)). cbn [text].
  destruct (lookup e (users w)) as [u|]; [|reflexivity].
  unfold delivered. cbn [users outbox]. destruct (smtp_up rt); reflexivity.
Qed.

(** After an issuance the document holds the issued token and expiry. *)
Lemma sendResetToken_stores rt (e : string) w u :
  e <> "" ->
  lookup e (users w) = Some u ->
  exists w',
    sendResetToken env rt (Some e) w
    = (Val (json true (Some "Reset link sent to email")), w')
    /\ lookup e (users w')
       = Some (reset_issued (uuid_text (randomUUID rt))
                 (now rt + minutes_15) u).
Proof.
  intros He Hl. rewrite (sendResetToken_present _ _ _ He), Hl.
  eexists. split; [reflexivity|]. cbn [users].
  apply lookup_update_by_email; [reflexivity|exact Hl].
Qed.

(** C10.  Reissuing a reset token overwrites the previous one.  After two
    [sendResetToken] calls for the same user, the stored reset token and
    expiry are those of the second call; within that expiry
    [verifyResetToken] accepts the second token, and it answers
    "Invalid Link." to the first one.  The two random UUIDs are taken to be
    different. *)
Theorem reset_reissue_overwrites :
  forall (rt1 rt2 rt3 : runtime) (e : string) (w : world) (u : UserModel.user),
    e <> "" ->
    lookup e (users w) = Some u ->
    uuid_text (randomUUID rt1) <> uuid_text (randomUUID rt2) ->
    exists w1 w2 u2,
      sendResetToken env rt1 (Some e) w
      = (Val (json true (Some "Reset link sent to email")), w1)
      /\ sendResetToken env rt2 (Some e) w1
         = (Val (json true (Some "Reset link sent to email")), w2)
      /\ lookup e (users w2) = Some u2
      /\ UserModel.resetToken u2 = uuid_text (randomUUID rt2)
      /\ UserModel.resetTokenExpireAt u2 = now rt2 + minutes_15
      /\ (now rt3 <= now rt2 + minutes_15 ->
          exists w3,
            verifyResetToken rt3 (Some e)
              (Some (uuid_text (randomUUID rt2))) w2
            = (Val (json true (Some "Enter new password")), w3))
      /\ verifyResetToken rt3 (Some e) (Some (uuid_text (randomUUID rt1))) w2
         = (Val (json false (Some "Invalid Link.")), w2).
Proof.
  intros rt1 rt2 rt3 e w u He Hl Hneq.
  destruct (sendResetToken_stores rt1 e w u He Hl) as (w1 & Hs1 & Hl1).
  destruct (sendResetToken_stores rt2 e w1 _ He Hl1) as (w2 & Hs2 & Hl2).
  exists w1, w2. eexists. repeat split; try eassumption; try reflexivity.
  - intros Hx. eexists.
    rewrite (verifyResetToken_present rt3 e _ w2 He (uuid_nonempty _)), Hl2.
    cbn [reset_issued UserModel.resetToken UserModel.set_resetToken
         UserModel.set_resetTokenExpireAt UserModel.resetTokenExpireAt].
    rewrite String.eqb_refl.
    pose proof (uuid_nonempty (randomUUID rt2)) as Hne.
    apply String.eqb_neq in Hne. rewrite Hne. cbn [negb orb].
    apply Z.ltb_ge in Hx. rewrite Hx. reflexivity.
  - rewrite (verifyResetToken_present rt3 e _ w2 He (uuid_nonempty _)), Hl2.
    cbn [reset_issued UserModel.resetToken UserModel.set_resetToken
         UserModel.set_resetTokenExpireAt UserModel.resetTokenExpireAt].
    assert (Hm : String.eqb (uuid_text (randomUUID rt2))
                   (uuid_text (randomUUID rt1)) = false).
    { apply String.eqb_neq. congruence. }
    rewrite Hm. cbn [negb]. rewrite orb_true_r. reflexivity.
Qed.

End Reissue.

(** Of the two reset links issued for Al, presented at time 5000, the
    second is accepted and the first is not. *)
Lemma reset_reissue_overwrites_witness :
  (exists w3,
      verifyResetToken (sample_rt 5000 uuid_a) (Some "al@x.com")
        (Some (uuid_text uuid_b)) world_after_second_reset
      = (Val (json true (Some "Enter new password")), w3))
  /\ verifyResetToken (sample_rt 5000 uuid_a) (Some "al@x.com")
       (Some (uuid_text uuid_a)) world_after_second_reset
     = (Val (json false (Some "Invalid Link.")), world_after_second_reset).
Proof.
  destruct (reset_reissue_overwrites sample_env
              (sample_rt 3000 uuid_a) (sample_rt 4000 uuid_b)
              (sample_rt 5000 uuid_a) "al@x.com" sample_world al)
    as (w1 & w2 & u2 & H1 & H2 & _ & _ & _ & Hok & Hbad).
  - discriminate.
  - reflexivity.
  - discriminate.
  - pose proof (f_equal snd H1) as E1.
    change (world_after_first_reset = w1) in E1. subst w1.
    pose proof (f_equal snd H2) as E2.
    change (world_after_second_reset = w2) in E2. subst w2.
    split; [|exact Hbad]. apply Hok. cbn. lia.
Defined.

(** * OAuth completion and the session validator *)

Section OAuth.

Context {lib : Library}.
Variable env : process_env.



(** A rejected code exchange leaves the handler as an exception. *)
Lemma googleVerifyToken_exchange_throws rt code w msg :
  token_endpoint rt code = Exn msg ->
  googleVerifyToken env rt code w = (Exn msg, w).
Proof.
  intros Ht. unfold googleVerifyToken. unfold_js. rewrite Ht. reflexivity.
Qed.

(** So does a rejected user-info call. *)
Lemma googleVerifyToken_userinfo_throws rt code w access_token msg :
  token_endpoint rt code = Val access_token ->
  userinfo_endpoint rt (text access_token) = Exn msg ->
  googleVerifyToken env rt code w = (Exn msg, w).
Proof.
  intros Ht Hp. unfold googleVerifyToken. unfold_js. rewrite Ht, Hp.
  reflexivity.
Qed.

(** Every other route answers: its handler catches what it throws. *)
Lemma caught_routes_always_reply rt req w :
  (forall code, req <> POST_oauth_google_callback code) ->
  exists r w', authRouter env rt req w = (Val r, w').
Proof.
  intros Hreq.
  destruct (authRouter env rt req w) as [[r|msg] w'] eqn:H; [eauto|].
  exfalso. destruct req; cbn [authRouter] in H;
    try (unfold register, verifyAccount, Signin, Logout, isAuthenticated,
           sendResetToken, verifyResetToken, resetPassword, googleLogin in H;
         unfold_js; repeat branch H; discriminate H).
  now apply (Hreq code).
Qed.


End OAuth.


(** * Sessions and the [userAuth] middleware *)

Section Sessions.

Context {lib : Library}.
Variable env : process_env.

(** What the middleware has checked when it calls [next()]. *)
Lemma userAuth_next_inv rt token id :
  userAuth env rt token = Next id ->
  exists t,
    token = Some (Signed t)
    /\ signed_with t = JWT_SECRET env
    /\ now rt / 1000 < exp t
    /\ c_id (payload t) = Some id.
Proof.
  unfold userAuth, jwt_verify. intros H.
  destruct token as [[t|s]|]; cbn [no_cookie] in H; try discriminate H.
  - destruct (String.eqb (signed_with t) (JWT_SECRET env)) eqn:Hk;
      cbn [negb] in H; [|discriminate H].
    destruct (exp t <=? now rt / 1000) eqn:Hx; [discriminate H|].
    destruct (c_id (payload t)) as [i|] eqn:Hid; [|discriminate H].
    injection H as ->. exists t. apply String.eqb_eq in Hk.
    apply Z.leb_gt in Hx. repeat split; assumption.
  - destruct (String.eqb s ""); discriminate H.
Qed.

(** A session issued by [Signin] or [verifyAccount] passes while it lasts. *)
Lemma userAuth_accepts_session_for rt rt' u :
  now rt' / 1000 < now rt / 1000 + seconds_7d ->
  userAuth env rt' (Some (Signed (session_for env rt u)))
  = Next (UserModel._id u).
Proof.
  intros Hx. unfold userAuth, jwt_verify, session_for, jwt_sign.
  cbn [no_cookie signed_with exp payload c_id].
  rewrite String.eqb_refl. cbn [negb].
  apply Z.leb_gt in Hx. rewrite Hx. reflexivity.
Qed.

(** A session issued by [googleVerifyToken] carries no [id], and the
    middleware stops it at any time. *)
Lemma userAuth_stops_oauth_session rt rt' p :
  exists m,
    userAuth env rt' (Some (Signed (oauth_session env rt p)))
    = Stop (json false (Some m)).
Proof.
  unfold userAuth, jwt_verify, oauth_session, jwt_sign.
  cbn [no_cookie signed_with exp payload c_id].
  rewrite String.eqb_refl. cbn [negb].
  destruct (now rt / 1000 + seconds_7d <=? now rt' / 1000);
    eexists; reflexivity.
Qed.

Lemma userAuth_stops_fresh_oauth_session rt rt' p :
  now rt' / 1000 < now rt / 1000 + seconds_7d ->
  userAuth env rt' (Some (Signed (oauth_session env rt p)))
  = Stop (json false (Some "Not Authorized Login Again.")).
Proof.
  intros Hx. unfold userAuth, jwt_verify, oauth_session, jwt_sign.
  cbn [no_cookie signed_with exp payload c_id].
  rewrite String.eqb_refl. cbn [negb].
  apply Z.leb_gt in Hx. rewrite Hx. reflexivity.
Qed.

(** Every route keeps the primary key unique. *)
Lemma authRouter_keeps_unique_ids rt req w res w' :
  authRouter env rt req w = (res, w') ->
  unique_ids (users w) -> unique_ids (users w').
Proof.
  intros H Hu.
  destruct req; cbn [authRouter] in H;
    unfold register, verifyAccount, Signin, Logout, isAuthenticated,
      sendResetToken, verifyResetToken, resetPassword, googleLogin,
      googleVerifyToken in H;
    unfold_js; repeat branch H; injection H as <- <-; cbn [users];
    try assumption;
    try (unfold unique_ids; rewrite update_first_ids;
         [assumption|reflexivity]);
    try (apply unique_ids_insert; assumption).
Qed.

(** So it is unique in every world the server reaches from one where it
    is, the empty collection among them. *)
Lemma serve_keeps_unique_ids reqs w :
  unique_ids (users w) -> unique_ids (users (serve env reqs w)).
Proof.
  revert w. induction reqs as [|[rt req] reqs IH]; intros w Hu; [exact Hu|].
  cbn [serve]. apply IH.
  destruct (authRouter env rt req w) as [res w'] eqn:H.
  exact (authRouter_keeps_unique_ids rt req w res w' H Hu).
Qed.

End Sessions.

(** C3.  Recovery at the flow boundary fails for the OAuth callback.  When
    the identity provider answers the code exchange with a 400, the callback
    does not answer [success: false]: the rejection leaves the handler as
    an uncaught exception.  (Every other route does answer, see
    [caught_routes_always_reply].) *)
Theorem oauth_upstream_failure_is_uncaught :
  token_endpoint (sample_rt_idp_down 5000) (Some "4/0AbCd")
  = Exn "Request failed with status code 400"
  /\ authRouter (lib := sample_library) sample_env (sample_rt_idp_down 5000)
       (POST_oauth_google_callback (Some "4/0AbCd")) sample_world
     = (Exn "Request failed with status code 400", sample_world).
Proof.
  split; [reflexivity|].
  cbn [authRouter]. now apply googleVerifyToken_exchange_throws.
Qed.

(** C4.  A session issued by OAuth completion does not pass [/is-auth].  Bo
    completes the OAuth login at time 5000 and calls [/is-auth] at time 6000
    with the cookie he was given: the token carries his email and name but
    no [id], and the middleware answers "Not Authorized Login Again.".
    (Sessions issued by [Signin] and [verifyAccount] pass, see
    [userAuth_accepts_session_for].) *)
Theorem oauth_session_fails_is_auth :
  googleVerifyToken sample_env (sample_rt 5000 uuid_a) (Some "4/0AbCd")
    sample_world
  = (Val (json_with_session bo_session true
            (Some "User registered successfully")),
     world_after_first_oauth)
  /\ c_id (payload bo_session) = None
  /\ authRouter (lib := sample_library) sample_env (sample_rt 6000 uuid_a)
       (POST_is_auth (Some (Signed bo_session))) world_after_first_oauth
     = (Val (json false (Some "Not Authorized Login Again.")),
        world_after_first_oauth).
Proof.
  split; [reflexivity|]. split; [reflexivity|].
  cbn [authRouter]. unfold bo_session.
  rewrite userAuth_stops_fresh_oauth_session; [reflexivity|].
  cbn. reflexivity.
Qed.

(** * More facts about the collection *)

Section MoreCollectionFacts.

Implicit Types (c : collection) (u : UserModel.user) (e : string).

Lemma has_email_other e e' u :
  UserModel.email u = e -> e <> e' -> has_email e' u = false.
Proof.
  intros He Hne. unfold has_email. apply String.eqb_neq. congruence.
Qed.

Lemma lookup_app_other e' c u :
  UserModel.email u <> e' -> lookup e' (c ++ [u]) = lookup e' c.
Proof.
  intros Hne. unfold lookup. induction c as [|v c IH]; simpl.
  - unfold has_email. apply String.eqb_neq in Hne. now rewrite Hne.
  - destruct (has_email e' v); [reflexivity|exact IH].
Qed.

(** An update through the address [e] leaves the other addresses alone. *)
Lemma lookup_update_other e e' c (f : UserModel.user -> UserModel.user) :
  (forall v, UserModel.email (f v) = UserModel.email v) ->
  e <> e' ->
  lookup e' (update_first (has_email e) f c) = lookup e' c.
Proof.
  intros Hf Hne. unfold lookup. induction c as [|v c IH]; simpl; [reflexivity|].
  destruct (has_email e v) eqn:Hv; simpl.
  - unfold has_email in Hv. apply String.eqb_eq in Hv.
    rewrite (has_email_other e e' v Hv Hne).
    rewrite (has_email_other e e' (f v)); [reflexivity| |exact Hne].
    now rewrite Hf.
  - destruct (has_email e' v); [reflexivity|exact IH].
Qed.

(** With a unique primary key, saving the document that [findOne] returned
    writes the first document with its address. *)
Lemma update_by_id_is_update_by_email e c u
  (f : UserModel.user -> UserModel.user) :
  unique_ids c ->
  lookup e c = Some u ->
  update_first (has_id (UserModel._id u)) f c
  = update_first (has_email e) f c.
Proof.
  unfold lookup, unique_ids. intros Hu.
  induction c as [|v c IH]; simpl; [reflexivity|].
  inversion Hu as [|? ? Hnotin Hu']; subst.
  destruct (has_email e v) eqn:Hv.
  - intros [= ->]. unfold has_id. now rewrite Nat.eqb_refl.
  - intros Hfind. destruct (has_id (UserModel._id u) v) eqn:Hid.
    + exfalso. apply Hnotin. unfold has_id in Hid.
      apply Nat.eqb_eq in Hid. rewrite Hid.
      apply in_map. now apply find_some in Hfind.
    + f_equal. now apply IH.
Qed.

Lemma update_first_emails (p : UserModel.user -> bool)
  (f : UserModel.user -> UserModel.user) c :
  (forall v, UserModel.email (f v) = UserModel.email v) ->
  map UserModel.email (update_first p f c) = map UserModel.email c.
Proof.
  intros Hf. induction c as [|v c IH]; simpl; [reflexivity|].
  destruct (p v); simpl; [now rewrite Hf|now rewrite IH].
Qed.

Lemma update_first_Forall (P : UserModel.user -> Prop)
  (p : UserModel.user -> bool) (f : UserModel.user -> UserModel.user) c :
  (forall v, P v -> P (f v)) ->
  Forall P c -> Forall P (update_first p f c).
Proof.
  intros Hf H. induction H as [|v c Hv Hc IH]; simpl; [constructor|].
  destruct (p v); constructor; auto.
Qed.

Lemma lookup_none_not_in e c :
  lookup e c = None -> ~ In e (map UserModel.email c).
Proof.
  unfold lookup. intros Hn Hin. apply in_map_iff in Hin.
  destruct Hin as (v & Hv & Hin).
  pose proof (find_none _ _ Hn v Hin) as Hf. unfold has_email in Hf.
  rewrite Hv, String.eqb_refl in Hf. discriminate Hf.
Qed.

Lemma unique_emails_insert c u :
  unique_emails c -> lookup (UserModel.email u) c = None ->
  unique_emails (c ++ [u]).
Proof.
  unfold unique_emails. intros Hu Hn. rewrite map_app. simpl.
  apply NoDup_app; [exact Hu|repeat constructor; intros []|].
  intros x Hx [<-|[]]. now apply (lookup_none_not_in _ _ Hn).
Qed.

(** *** Collections that grow *)

Section Grows.

Variable R : UserModel.user -> UserModel.user -> Prop.
Hypothesis R_refl : forall v, R v v.

Lemma Forall2_refl c : Forall2 R c c.
Proof. induction c; constructor; auto. Qed.

Lemma grows_refl c : grows_from R c c.
Proof.
  exists c, []. rewrite app_nil_r. split; [reflexivity|].
  split; [apply Forall2_refl|simpl; lia].
Qed.

Lemma grows_append c u : grows_from R c (c ++ [u]).
Proof.
  exists c, [u]. split; [reflexivity|].
  split; [apply Forall2_refl|simpl; lia].
Qed.

Lemma Forall2_update_first (p : UserModel.user -> bool)
  (f : UserModel.user -> UserModel.user) c :
  (forall v, R v (f v)) -> Forall2 R c (update_first p f c).
Proof.
  intros Hf. induction c as [|v c IH]; simpl; [constructor|].
  destruct (p v); constructor; auto. apply Forall2_refl.
Qed.

Lemma grows_update_first (p : UserModel.user -> bool)
  (f : UserModel.user -> UserModel.user) c :
  (forall v, R v (f v)) -> grows_from R c (update_first p f c).
Proof.
  intros Hf. exists (update_first p f c), []. rewrite app_nil_r.
  split; [reflexivity|]. split; [now apply Forall2_update_first|simpl; lia].
Qed.

End Grows.

(** A document found before is found after, related by [R], when [R] keeps
    the address. *)
Lemma grows_lookup (R : UserModel.user -> UserModel.user -> Prop) e c c' u :
  (forall v v', R v v' -> UserModel.email v' = UserModel.email v) ->
  grows_from R c c' ->
  lookup e c = Some u ->
  exists u', lookup e c' = Some u' /\ R u u'.
Proof.
  intros HR (kept & added & -> & HF & _) Hl.
  assert (H : exists u', lookup e kept = Some u' /\ R u u').
  { unfold lookup in *. induction HF as [|v v' c k Hv HF IH]; simpl in *;
      [discriminate|].
    unfold has_email in *. rewrite (HR _ _ Hv).
    destruct (String.eqb (UserModel.email v) e).
    - injection Hl as <-. eauto.
    - now apply IH. }
  destruct H as (u' & Hl' & Hu'). exists u'. split; [|exact Hu'].
  clear - Hl'. unfold lookup in *.
  induction kept as [|x k IH]; simpl in *; [discriminate|].
  destruct (has_email e x); [exact Hl'|now apply IH].
Qed.

End MoreCollectionFacts.

(** * Registration, then verification and sign-in *)

Section Registration.

Context {lib : Library}.
Variable env : process_env.

(** A complete registration for an unknown address appends one document:
    unverified, with the hashed password, the issued token and its expiry
    15 minutes ahead, under a key no other document has.  The address then
    finds it, and it alone. *)
Theorem register_stores_account :
  forall (rt : runtime) (n e p : string) (w : world),
    n <> "" -> e <> "" -> p <> "" ->
    lookup e (users w) = None ->
    exists w',
      register env rt (Some n) (Some e) (Some p) w = (Val (json true None), w')
      /\ users w' = users w ++ [registered rt n e p (users w)]
      /\ lookup e (users w') = Some (registered rt n e p (users w))
      /\ count_email e (users w') = 1%nat
      /\ ~ In (UserModel._id (registered rt n e p (users w)))
              (map UserModel._id (users w)).
Proof.
  intros rt n e p w Hn He Hp Hl.
  rewrite (register_present env rt n e p w Hn He Hp), Hl.
  eexists. split; [reflexivity|]. cbn [users].
  split; [reflexivity|]. split; [|split].
  - apply lookup_app_none; [exact Hl|reflexivity].
  - apply count_app_none; [exact Hl|reflexivity].
  - apply fresh_id_not_in.
Qed.

(** Whether the mail server accepts the mail changes neither the reply nor
    the collection, for [register] and for [sendResetToken]. *)
Theorem mail_failure_is_swallowed :
  forall (rt : runtime) (b : bool) (name email password : field) (w : world),
    (fst (register env (with_smtp b rt) name email password w)
     = fst (register env rt name email password w)
     /\ users (snd (register env (with_smtp b rt) name email password w))
        = users (snd (register env rt name email password w)))
    /\
    (fst (sendResetToken env (with_smtp b rt) email w)
     = fst (sendResetToken env rt email w)
     /\ users (snd (sendResetToken env (with_smtp b rt) email w))
        = users (snd (sendResetToken env rt email w))).
Proof.
  intros rt b name email password w. split.
  - destruct (falsy name || falsy email || falsy password) eqn:Hg.
    + rewrite !(register_missing env _ name email password w Hg).
      split; reflexivity.
    + apply orb_false_iff in Hg. destruct Hg as [Hg Hp].
      apply orb_false_iff in Hg. destruct Hg as [Hn He].
      apply falsy_false in Hn, He, Hp.
      destruct Hn as (n & -> & Hn). destruct He as (e & -> & He).
      destruct Hp as (p & -> & Hp).
      rewrite !(register_present env _ n e p w Hn He Hp).
      destruct (lookup e (users w)); split; reflexivity.
  - destruct (falsy email) eqn:He.
    + unfold sendResetToken. rewrite He. split; reflexivity.
    + apply falsy_false in He. destruct He as (e & -> & He).
      rewrite !(sendResetToken_present env _ e w He).
      destruct (lookup e (users w)); split; reflexivity.
Qed.



End Registration.

(** Cy registers while the mail server is down. *)
Lemma register_stores_account_witness :
  register (lib := sample_library) sample_env rt_cy
    (Some "Cy") (Some "cy@x.com") (Some "pw3") sample_world
  = (Val (json true None), world_with_cy)
  /\ lookup "cy@x.com" (users world_with_cy) = Some cy.
Proof.
  assert (Hn : "Cy" <> "") by discriminate.
  assert (He : "cy@x.com" <> "") by discriminate.
  assert (Hp : "pw3" <> "") by discriminate.
  assert (Hl : lookup "cy@x.com" (users sample_world) = None) by reflexivity.
  destruct (register_stores_account (lib := sample_library) sample_env rt_cy
              "Cy" "cy@x.com" "pw3" sample_world Hn He Hp Hl)
    as (w' & Hrun & _ & Hl' & _).
  pose proof (f_equal snd Hrun) as E.
  change (world_with_cy = w') in E. subst w'.
  split; [exact Hrun|exact Hl'].
Defined.

(** With the mail server up or down, Cy's registration gives the same
    reply and the same collection. *)
Lemma mail_failure_is_swallowed_witness :
  fst (register (lib := sample_library) sample_env
         (with_smtp false (sample_rt 5000 uuid_b))
         (Some "Cy") (Some "cy@x.com") (Some "pw3") sample_world)
  = fst (register (lib := sample_library) sample_env (sample_rt 5000 uuid_b)
           (Some "Cy") (Some "cy@x.com") (Some "pw3") sample_world).
Proof.
  exact (proj1 (proj1 (mail_failure_is_swallowed (lib := sample_library)
                         sample_env (sample_rt 5000 uuid_b) false
                         (Some "Cy") (Some "cy@x.com") (Some "pw3")
                         sample_world))).
Defined.



(** * When a token is accepted, and resetting the password *)

Section Acceptance.

Context {lib : Library}.
Variable env : process_env.


(** A document that holds no verification (resp. reset) token cannot be
    verified (resp. have a reset authorised) by any request, at any time:
    the request fails and nothing is written. *)
Theorem no_pending_token_no_acceptance :
  forall (rt : runtime) (token : field) (e : string) (w : world)
         (u : UserModel.user),
    lookup e (users w) = Some u ->
    (UserModel.verifyToken u = "" ->
     exists m, verifyAccount env rt token (Some e) w
               = (Val (json false (Some m)), w))
    /\
    (UserModel.resetToken u = "" ->
     exists m, verifyResetToken rt (Some e) token w
               = (Val (json false (Some m)), w)).
Proof.
  intros rt token e w u Hl. split; intros Hempty.
  - destruct (falsy token || falsy (Some e)) eqn:Hg.
    + rewrite (verifyAccount_missing env rt _ _ w Hg). eauto.
    + apply orb_false_iff in Hg. destruct Hg as [Ht He].
      apply falsy_false in Ht. destruct Ht as (t & -> & Ht).
      apply falsy_false in He. destruct He as (e' & [= <-] & He).
      rewrite (verifyAccount_present env rt t e w Ht He), Hl, Hempty.
      assert (Hm : String.eqb "" t = false)
        by (apply String.eqb_neq; congruence).
      rewrite Hm. cbn [negb]. eauto.
  - destruct (falsy (Some e) || falsy token) eqn:Hg.
    + rewrite (verifyResetToken_missing rt _ _ w Hg). eauto.
    + apply orb_false_iff in Hg. destruct Hg as [He Ht].
      apply falsy_false in Ht. destruct Ht as (t & -> & Ht).
      apply falsy_false in He. destruct He as (e' & [= <-] & He).
      rewrite (verifyResetToken_present rt e t w He Ht), Hl, Hempty.
      cbn [String.eqb orb]. eauto.
Qed.

(** The decision table of [resetPassword] once the password is present. *)
Lemma resetPassword_present rt (email : field) (p : string) w :
  p <> "" ->
  resetPassword rt email (Some p) w =
    match email with
    | None => (Val (json false (Some "User not found.")), w)
    | Some e =>
        match lookup e (users w) with
        | None => (Val (json false (Some "User not found.")), w)
        | Some u =>
            (Val (json true (Some "Password has been reset successfully.")),
             {| users := update_first (has_id (UserModel._id u))
                           (UserModel.set_password (bcrypt_hash p (salt rt)))
                           (users w);
                outbox := outbox w |})
        end
    end.
Proof.
  intros Hp. unfold resetPassword. rewrite (falsy_some _ Hp).
  unfold_js. unfold lookup. cbn [text].
  destruct email as [e|]; [|reflexivity].
  destruct (find (has_email e) (users w)); reflexivity.
Qed.

(** [resetPassword] asks for no token: for a registered address it stores
    the hash of the new password whatever the reset token and expiry of
    the document are, and changes no other field. *)
Theorem resetPassword_asks_no_token :
  forall (rt : runtime) (e p : string) (w : world) (u : UserModel.user),
    p <> "" ->
    unique_ids (users w) ->
    lookup e (users w) = Some u ->
    exists w',
      resetPassword rt (Some e) (Some p) w
      = (Val (json true (Some "Password has been reset successfully.")), w')
      /\ lookup e (users w')
         = Some (UserModel.set_password (bcrypt_hash p (salt rt)) u).
Proof.
  intros rt e p w u Hp Hu Hl.
  rewrite (resetPassword_present rt (Some e) p w Hp), Hl.
  eexists. split; [reflexivity|]. cbn [users].
  apply lookup_update_by_id; [exact Hu|reflexivity|exact Hl].
Qed.

Lemma unique_ids_update (p : UserModel.user -> bool)
  (f : UserModel.user -> UserModel.user) c :
  (forall v, UserModel._id (f v) = UserModel._id v) ->
  unique_ids c -> unique_ids (update_first p f c).
Proof.
  intros Hf Hu. unfold unique_ids. now rewrite update_first_ids.
Qed.


End Acceptance.

(** * One request, one step of the collection *)

Section Steps.

Context {lib : Library}.
Variable env : process_env.

Ltac step_done :=
  first
    [ match goal with
      | H : validate _ = Val _ |- _ => cbn in H; discriminate H
      end
    | apply t_same
    | eapply t_update_by_email; [reflexivity|constructor]
    | eapply t_update_by_id; [reflexivity|eassumption|constructor]
    | eapply t_insert; try reflexivity; try eassumption;
      try (match goal with
           | H : validate _ = Val ?a |- _ => destruct a; exact H
           end);
      try (cbn; intros E; exfalso; exact (uuid_nonempty _ E)) ].

Lemma authRouter_transition rt req w res w' :
  authRouter env rt req w = (res, w') ->
  transition (addressee rt req) (users w) (users w').
Proof.
  intros H.
  destruct req; cbn [authRouter addressee] in *;
    unfold register, verifyAccount, Signin, Logout, isAuthenticated,
      sendResetToken, verifyResetToken, resetPassword, googleLogin,
      googleVerifyToken in H;
    unfold_js; repeat branch H; injection H as <- <-; cbn [users].
  all: step_done.
Qed.

Lemma doc_update_keeps f v :
  doc_update f -> same_identity v (f v) /\ stays_verified v (f v).
Proof.
  intros Hf. destruct Hf; unfold same_identity, stays_verified; cbn;
    repeat split; auto.
Qed.

Lemma doc_update_email f v :
  doc_update f -> UserModel.email (f v) = UserModel.email v.
Proof. intros Hf. now destruct Hf. Qed.

Lemma doc_update_id f v :
  doc_update f -> UserModel._id (f v) = UserModel._id v.
Proof. intros Hf. now destruct Hf. Qed.

Lemma doc_update_valid f v : doc_update f -> valid_doc v -> valid_doc (f v).
Proof.
  intros Hf (He & Hn & Hv & Hr). destruct Hf; unfold valid_doc; cbn;
    repeat split; auto.
  intros E. exfalso. exact (uuid_nonempty _ E).
Qed.

Lemma validate_ok d :
  validate d = Val tt -> UserModel.email d <> "" /\ UserModel.name d <> "".
Proof.
  unfold validate.
  destruct (String.eqb (UserModel.email d) "") eqn:He; [discriminate|].
  destruct (String.eqb (UserModel.name d) "") eqn:Hn; [discriminate|].
  intros _. split; now apply String.eqb_neq.
Qed.

Lemma existsb_has_email_false e c :
  existsb (has_email e) c = false -> lookup e c = None.
Proof.
  unfold lookup. induction c as [|v c IH]; simpl; [reflexivity|].
  destruct (has_email e v); [discriminate|exact IH].
Qed.

Lemma documents_persist_aux rt req w w' res :
  authRouter env rt req w = (res, w') ->
  grows_from (fun u u' => same_identity u u' /\ stays_verified u u')
    (users w) (users w').
Proof.
  intros H.
  assert (Hrefl : forall v, same_identity v v /\ stays_verified v v)
    by (intros v; unfold same_identity, stays_verified; auto).
  destruct (authRouter_transition rt req w res w' H).
  - now apply grows_refl.
  - apply grows_update_first; [exact Hrefl|].
    intros v. now apply doc_update_keeps.
  - apply grows_update_first; [exact Hrefl|].
    intros v. now apply doc_update_keeps.
  - now apply grows_append.
Qed.

(** Every request keeps every document, in its place, with its key, address
    and name, and never takes the verified flag away; it adds at most one
    document. *)
Theorem documents_persist :
  forall (rt : runtime) (req : request) (w w' : world) (res : res reply),
    authRouter env rt req w = (res, w') ->
    grows_from (fun u u' => same_identity u u' /\ stays_verified u u')
      (users w) (users w').
Proof.
  intros rt req w w' res. apply documents_persist_aux.
Qed.

(** A request changes nothing under an address it is not about (with a
    unique primary key). *)
Theorem request_touches_only_its_addressee :
  forall (rt : runtime) (req : request) (w w' : world) (res : res reply)
         (e' : string),
    unique_ids (users w) ->
    authRouter env rt req w = (res, w') ->
    addressee rt req <> Some e' ->
    lookup e' (users w') = lookup e' (users w).
Proof.
  intros rt req w w' res e' Hu H Hne.
  destruct (authRouter_transition rt req w res w' H)
    as [|e f Ha Hf|e u f Ha Hl Hf|e d Ha He Hid Hv Hex Ht Hr Hx].
  - reflexivity.
  - apply lookup_update_other; [intros v; now apply doc_update_email|].
    congruence.
  - rewrite (update_by_id_is_update_by_email e (users w) u f Hu Hl).
    apply lookup_update_other; [intros v; now apply doc_update_email|].
    congruence.
  - apply lookup_app_other. congruence.
Qed.

Lemma transition_keeps_valid a c c' :
  transition a c c' -> valid_collection c -> valid_collection c'.
Proof.
  intros Ht (Hids & Hems & Hdocs).
  destruct Ht as [|e f Ha Hf|e u f Ha Hl Hf|e d Ha He Hid Hv Hex Ht Hr Hx].
  - repeat split; assumption.
  - repeat split.
    + apply unique_ids_update; [intros v; now apply doc_update_id|exact Hids].
    + unfold unique_emails. rewrite update_first_emails; [exact Hems|].
      intros v. now apply doc_update_email.
    + apply update_first_Forall; [|exact Hdocs].
      intros v. now apply doc_update_valid.
  - repeat split.
    + apply unique_ids_update; [intros v; now apply doc_update_id|exact Hids].
    + unfold unique_emails. rewrite update_first_emails; [exact Hems|].
      intros v. now apply doc_update_email.
    + apply update_first_Forall; [|exact Hdocs].
      intros v. now apply doc_update_valid.
  - repeat split.
    + unfold unique_ids in *. rewrite map_app. simpl.
      apply NoDup_app; [exact Hids|repeat constructor; intros []|].
      intros x Hin [<-|[]]. rewrite Hid in Hin.
      now apply (fresh_id_not_in c).
    + apply unique_emails_insert; [exact Hems|].
      rewrite He. now apply existsb_has_email_false.
    + apply Forall_app. split; [exact Hdocs|]. constructor; [|constructor].
      destruct (validate_ok d Hv) as [H1 H2].
      unfold valid_doc. repeat split; try assumption.
      intros _. exact Hx.
Qed.

(** The server keeps the collection valid: keys and addresses stay unique,
    every document keeps its required paths, and a document that holds no
    token has expiry 0.  This holds after any sequence of requests handled
    from a valid collection. *)
Theorem server_keeps_collection_valid :
  forall (reqs : list (runtime * request)) (w : world),
    valid_collection (users w) ->
    valid_collection (users (serve env reqs w)).
Proof.
  induction reqs as [|[rt req] reqs IH]; intros w Hv; [exact Hv|].
  cbn [serve]. apply IH.
  destruct (authRouter env rt req w) as [res w'] eqn:H. cbn [snd].
  exact (transition_keeps_valid _ _ _ (authRouter_transition rt req w res w' H)
           Hv).
Qed.

(** An account that is verified stays verified, under the same key, through
    any sequence of requests. *)
Theorem verified_stays_verified :
  forall (reqs : list (runtime * request)) (w : world) (e : string)
         (u : UserModel.user),
    lookup e (users w) = Some u ->
    UserModel.isAccountVerified u = true ->
    exists u',
      lookup e (users (serve env reqs w)) = Some u'
      /\ UserModel._id u' = UserModel._id u
      /\ UserModel.isAccountVerified u' = true.
Proof.
  induction reqs as [|[rt req] reqs IH]; intros w e u Hl Hv.
  - exists u. repeat split; assumption.
  - cbn [serve].
    destruct (authRouter env rt req w) as [res w'] eqn:H. cbn [snd].
    destruct (grows_lookup
                (fun u u' => same_identity u u' /\ stays_verified u u')
                e (users w) (users w') u)
      as (u1 & Hl1 & (Hid & _ & _) & Hsv).
    + intros v v' [(_ & He & _) _]. exact He.
    + exact (documents_persist_aux rt req w w' res H).
    + exact Hl.
    + destruct (IH w' e u1 Hl1 (Hsv Hv)) as (u' & Hl' & Hid' & Hv').
      exists u'. repeat split; [exact Hl'|congruence|exact Hv'].
Qed.

(** Only [/reset-password] changes the password of a stored document. *)
Theorem password_changes_only_by_reset :
  forall (rt : runtime) (req : request) (w w' : world) (res : res reply),
    is_reset_password req = false ->
    authRouter env rt req w = (res, w') ->
    grows_from same_password (users w) (users w').
Proof.
  intros rt req w w' res Hreq H.
  assert (Hrefl : forall v, same_password v v) by reflexivity.
  destruct req; try discriminate Hreq; cbn [authRouter] in H;
    unfold register, verifyAccount, Signin, Logout, isAuthenticated,
      sendResetToken, verifyResetToken, googleLogin, googleVerifyToken in H;
    unfold_js; repeat branch H; injection H as <- <-; cbn [users];
    first [ now apply grows_refl
          | now apply grows_append
          | apply grows_update_first; [exact Hrefl|reflexivity] ].
Qed.

End Steps.

(** * The OAuth callback and the schema *)

Section Boundary.

Context {lib : Library}.
Variable env : process_env.

(** The OAuth callback for an address that is not registered throws, and
    writes nothing, when the profile lacks the address or the name: the
    schema requires both. *)
Theorem oauth_incomplete_profile_throws :
  forall (rt : runtime) (code access_token : field) (p : profile) (w : world),
    token_endpoint rt code = Val access_token ->
    userinfo_endpoint rt (text access_token) = Val p ->
    (forall e, g_email p = Some e -> lookup e (users w) = None) ->
    falsy (g_email p) || falsy (g_name p) = true ->
    exists msg, googleVerifyToken env rt code w = (Exn msg, w).
Proof.
  intros rt code access_token p w Ht Hp Hl Hmiss.
  unfold googleVerifyToken. unfold_js. rewrite Ht, Hp.
  assert (Hfind : match g_email p with
                  | Some s => (Val (find (has_email s) (users w)), w)
                  | None => (Val None, w)
                  end = (Val None, w)).
  { destruct (g_email p) as [e|] eqn:He; [|reflexivity].
    specialize (Hl e eq_refl). unfold lookup in Hl. now rewrite Hl. }
  rewrite Hfind. unfold validate, UserModel.new_UserModel.
  cbn [UserModel.email UserModel.name UserModel.i_email UserModel.i_name].
  destruct (g_email p) as [e|]; cbn [UserModel.or_default falsy] in *.
  - destruct (String.eqb e ""); [eexists; reflexivity|].
    cbn [orb] in Hmiss.
    destruct (g_name p) as [n|]; cbn [UserModel.or_default falsy] in *.
    + rewrite Hmiss. eexists; reflexivity.
    + eexists; reflexivity.
  - eexists; reflexivity.
Qed.

End Boundary.

(** * The theorems above on the sample data *)


(** Once Al has verified, no token verifies him again. *)
Lemma no_pending_token_no_acceptance_witness :
  exists m,
    verifyAccount sample_env (sample_rt 6000 uuid_a)
      (Some "anything") (Some "al@x.com") world_al_verified
    = (Val (json false (Some m)), world_al_verified).
Proof.
  assert (Hl : lookup "al@x.com" (users world_al_verified)
               = Some (verified al)) by reflexivity.
  exact (proj1 (no_pending_token_no_acceptance sample_env
                  (sample_rt 6000 uuid_a) (Some "anything") "al@x.com"
                  world_al_verified (verified al) Hl) eq_refl).
Defined.

(** Al's password is replaced although his reset link was never presented. *)
Lemma resetPassword_asks_no_token_witness :
  UserModel.resetToken al <> ""
  /\ exists w',
       resetPassword (lib := sample_library) (sample_rt 6000 uuid_a)
         (Some "al@x.com") (Some "pw9") sample_world
       = (Val (json true (Some "Password has been reset successfully.")), w')
       /\ lookup "al@x.com" (users w')
          = Some (UserModel.set_password "$2a$10$salt.pw9" al).
Proof.
  split; [discriminate|].
  assert (Hp : "pw9" <> "") by discriminate.
  assert (Hu : unique_ids (users sample_world)).
  { unfold unique_ids. simpl. repeat constructor. intros []. }
  assert (Hl : lookup "al@x.com" (users sample_world) = Some al)
    by reflexivity.
  exact (resetPassword_asks_no_token (lib := sample_library)
           (sample_rt 6000 uuid_a) "al@x.com" "pw9" sample_world al
           Hp Hu Hl).
Defined.


(** Cy's registration keeps Al's document and adds one. *)
Lemma documents_persist_witness :
  grows_from (fun u u' => same_identity u u' /\ stays_verified u u')
    (users sample_world) (users world_with_cy).
Proof.
  apply (documents_persist (lib := sample_library) sample_env rt_cy
           (POST_register (Some "Cy") (Some "cy@x.com") (Some "pw3"))
           sample_world world_with_cy (Val (json true None))).
  reflexivity.
Defined.

(** Cy's registration changes nothing under Al's address. *)
Lemma request_touches_only_its_addressee_witness :
  lookup "al@x.com" (users world_with_cy)
  = lookup "al@x.com" (users sample_world).
Proof.
  apply (request_touches_only_its_addressee (lib := sample_library)
           sample_env rt_cy
           (POST_register (Some "Cy") (Some "cy@x.com") (Some "pw3"))
           sample_world world_with_cy (Val (json true None)) "al@x.com").
  - unfold unique_ids. simpl. repeat constructor. intros [].
  - reflexivity.
  - discriminate.
Defined.

(** The collection is valid after the sample requests. *)
Lemma server_keeps_collection_valid_witness :
  valid_collection
    (users (serve (lib := sample_library) sample_env sample_requests
              empty_world)).
Proof.
  apply (server_keeps_collection_valid (lib := sample_library) sample_env
           sample_requests empty_world).
  repeat split; constructor.
Defined.

(** Al, verified, stays verified through a reset request, a second
    registration of his address and a password reset. *)
Lemma verified_stays_verified_witness :
  exists u',
    lookup "al@x.com"
      (users (serve (lib := sample_library) sample_env
                requests_after_verification world_al_verified))
    = Some u'
    /\ UserModel._id u' = 1%nat
    /\ UserModel.isAccountVerified u' = true.
Proof.
  assert (Hl : lookup "al@x.com" (users world_al_verified)
               = Some (verified al)) by reflexivity.
  exact (verified_stays_verified (lib := sample_library) sample_env
           requests_after_verification world_al_verified "al@x.com"
           (verified al) Hl eq_refl).
Defined.

(** Verifying Al does not touch his password. *)
Lemma password_changes_only_by_reset_witness :
  grows_from same_password (users sample_world) (users world_al_verified).
Proof.
  apply (password_changes_only_by_reset (lib := sample_library) sample_env
           (sample_rt 5000 uuid_a)
           (POST_account_verify (Some (uuid_text uuid_a)) (Some "al@x.com"))
           sample_world world_al_verified
           (Val (json_with_session
                   (session_for sample_env (sample_rt 5000 uuid_a) al)
                   true (Some "Account verified"))));
    reflexivity.
Defined.

(** The provider's profile has no name. *)
Lemma oauth_incomplete_profile_throws_witness :
  exists msg,
    googleVerifyToken sample_env (sample_rt_no_name 5000) (Some "4/0AbCd")
      sample_world
    = (Exn msg, sample_world).
Proof.
  apply (oauth_incomplete_profile_throws sample_env (sample_rt_no_name 5000)
           (Some "4/0AbCd") (Some "ya29.token")
           {| g_email := Some "di@x.com"; g_name := None |} sample_world).
  - reflexivity.
  - reflexivity.
  - intros e [= <-]. reflexivity.
  - reflexivity.
Defined.

(** * Replies, cookies and mail *)

Section Replies.

Context {lib : Library}.
Variable env : process_env.

Ltac run_route H :=
  cbn [authRouter] in H;
  unfold register, verifyAccount, Signin, Logout, isAuthenticated,
    sendResetToken, verifyResetToken, resetPassword, googleLogin,
    googleVerifyToken, userAuth in H;
  unfold_js; repeat branch H.

(** A session cookie is set only by a reply that reports success: it is
    the [token] cookie with the http-only, secure, cross-site, 7-day
    options, and its token is signed with the server's secret and expires
    7 days after it was issued. *)
Theorem session_cookie_only_on_success :
  forall (rt : runtime) (req : request) (w w' : world) (r : reply)
         (cname : string) (t : jwt) (o : cookie_options),
    authRouter env rt req w = (Val r, w') ->
    cookie r = SetCookie cname t o ->
    is_success r = true
    /\ cname = "token"
    /\ o = session_cookie_options
    /\ signed_with t = JWT_SECRET env
    /\ iat t = now rt / 1000
    /\ exp t = iat t + seconds_7d.
Proof.
  intros rt req w w' r cname t o H Hc.
  destruct req; run_route H; try discriminate H;
    injection H as <- <-; try discriminate Hc;
    injection Hc as <- <- <-; repeat split.
Qed.

(** [/singin], [/logout], [/is-auth] and [/oauth/google/login] never write:
    whatever they answer, the world is the one they found. *)
Theorem read_only_routes :
  forall (rt : runtime) (req : request) (w w' : world) (res : res reply),
    match req with
    | POST_singin _ _ | POST_logout | POST_is_auth _
    | POST_oauth_google_login => True
    | _ => False
    end ->
    authRouter env rt req w = (res, w') ->
    w' = w.
Proof.
  intros rt req w w' res Hreq H.
  destruct req; try contradiction; run_route H;
    injection H as <- <-; reflexivity.
Qed.

End Replies.

(** Al's sign-in sets the session cookie. *)
Lemma session_cookie_only_on_success_witness :
  signed_with (session_for sample_env (sample_rt 5000 uuid_a) al) = "s3cr3t"
  /\ exp (session_for sample_env (sample_rt 5000 uuid_a) al)
     = iat (session_for sample_env (sample_rt 5000 uuid_a) al) + seconds_7d.
Proof.
  destruct (session_cookie_only_on_success (lib := sample_library) sample_env
              (sample_rt 5000 uuid_a)
              (POST_singin (Some "al@x.com") (Some "pw1"))
              sample_world sample_world
              (json_with_session
                 (session_for sample_env (sample_rt 5000 uuid_a) al) true None)
              "token" (session_for sample_env (sample_rt 5000 uuid_a) al)
              session_cookie_options eq_refl eq_refl)
    as (_ & _ & _ & Hk & _ & Hx).
  split; [exact Hk|exact Hx].
Defined.

(** Al's sign-in leaves the world as it was. *)
Lemma read_only_routes_witness :
  snd (authRouter (lib := sample_library) sample_env (sample_rt 5000 uuid_a)
         (POST_singin (Some "al@x.com") (Some "pw1")) sample_world)
  = sample_world.
Proof.
  apply (read_only_routes (lib := sample_library) sample_env
           (sample_rt 5000 uuid_a)
           (POST_singin (Some "al@x.com") (Some "pw1"))
           sample_world _
           (fst (authRouter (lib := sample_library) sample_env
                   (sample_rt 5000 uuid_a)
                   (POST_singin (Some "al@x.com") (Some "pw1"))
                   sample_world)) I).
  reflexivity.
Defined.

(** * The handlers as Express calls them *)

Ltac unfold_express :=
  unfold Express.register, Express.verifyAccount, Express.Signin,
    Express.sendResetToken, Express.verifyResetToken, Express.resetPassword,
    Express.googleVerifyToken, Express.userAuth, Express.destructure,
    Express.findOne, Express.updateOne, Express.save, Express.save_new,
    Logout, isAuthenticated, googleLogin,
    jwt_sign_checked, jwt_verify_checked in *;
  unfold_js.

(** Case analysis on the innermost test the goal branches on. *)
Ltac branch_goal :=
  match goal with
  | |- context [match ?x with _ => _ end] =>
      lazymatch x with
      | context [match _ with _ => _ end] => fail
      | _ => destruct x eqn:?
      end
  end;
  cbv beta iota.

Section ExpressFacts.

Context {lib : Library}.
Variable env : process_env.

(** On a request with its body parsed, while the store answers and
    [JWT_SECRET] is set, the handlers as Express calls them are the
    controllers of the first part. *)
Lemma Express_app_nominal rt req w :
  JWT_SECRET env <> "" ->
  Express.app env rt store_up (as_http req) w = authRouter env rt req w.
Proof.
  intros Hs. apply String.eqb_neq in Hs.
  destruct req; cbn [as_http with_body Express.app authRouter req_route
                       req_body req_cookie req_code];
    unfold register, verifyAccount, Signin, sendResetToken, verifyResetToken,
      resetPassword, googleVerifyToken, userAuth, jwt_verify;
    unfold_express; unfold jwt_verify;
    cbn [read_error write_error store_up b_name b_email b_password b_token
           b_resetToken b_newPassword];
    rewrite ?Hs; repeat branch_goal; try reflexivity.
Qed.

End ExpressFacts.

Section ExpressOutcomes.

Context {lib : Library}.
Variable env : process_env.

Ltac run_app H :=
  cbn [Express.app req_route req_body req_cookie req_code] in H;
  unfold_express; repeat branch H.

(** C9 (amended).  In a deployment whose [JWT_SECRET] is set, whenever a
    route answers [success: false] the world is the one the request found:
    no document was created or modified and no mail was sent.  This covers
    the replies of the guards and of every [catch]: a store call that
    rejects does so instead of writing, and every check comes before the
    first write.  It holds with or without a body and whatever the store
    answers. *)
Theorem error_atomicity :
  forall (rt : runtime) (st : store_state) (req : http_request)
         (w w' : world) (r : reply),
    JWT_SECRET env <> "" ->
    Express.app env rt st req w = (Val r, w') ->
    is_failure r = true ->
    users w' = users w /\ w' = w.
Proof.
  intros rt st [r0 b c code] w w' r Hs H Hf.
  apply String.eqb_neq in Hs.
  assert (E : w' = w); [|now rewrite E].
  destruct r0; run_app H; try discriminate H;
    try (injection H as <- <-); try reflexivity; try discriminate Hf;
    congruence.
Qed.

(** The decision table of [Express.Signin] on a request with a body. *)
Lemma Express_Signin_table rt st (o : json_body) w :
  Express.Signin env rt st (Some o) w =
    if falsy (b_email o) || falsy (b_password o) then
      (Val (json false (Some "Email and password are required")), w)
    else
      match read_error st with
      | Some msg => (Val (json false (Some msg)), w)
      | None =>
          match lookup (text (b_email o)) (users w) with
          | None => (Val (json false (Some "Invalid email")), w)
          | Some u =>
              if bcrypt_compare (text (b_password o)) (UserModel.password u)
              then
                if String.eqb (JWT_SECRET env) "" then
                  (Val (json false
                          (Some "secretOrPrivateKey must have a value")), w)
                else
                  (Val (json_with_session (session_for env rt u) true None),
                   w)
              else (Val (json false (Some "Incorrect password")), w)
          end
      end.
Proof.
  unfold Express.Signin, Express.destructure.
  destruct (falsy (b_email o) || falsy (b_password o)) eqn:Hg;
    [reflexivity|].
  apply orb_false_iff in Hg. destruct Hg as [He _].
  apply falsy_false in He. destruct He as (e & -> & He).
  unfold_express. unfold lookup. cbn [text].
  destruct (read_error st); [reflexivity|].
  destruct (find (has_email e) (users w)) as [u|]; [|reflexivity].
  destruct (bcrypt_compare (text (b_password o)) (UserModel.password u));
    cbn [negb]; [|reflexivity].
  destruct (String.eqb (JWT_SECRET env) ""); reflexivity.
Qed.

(** C7 (amended).  The outcomes of [Signin] on a request that carries a
    body, in the order of its tests: a missing email or password; a store
    lookup that rejects (answered with the error's message); no document
    with that email ("Invalid email"); a password that [bcrypt.compare] does
    not match against the stored hash ("Incorrect password"); a signing that
    throws because [JWT_SECRET] is not set (answered with the error's
    message); otherwise success with the session cookie.  The six cases
    cover every such request, and none writes. *)
Theorem Signin_outcomes :
  forall (rt : runtime) (st : store_state) (o : json_body) (w : world),
    (falsy (b_email o) || falsy (b_password o) = true ->
     Express.Signin env rt st (Some o) w
     = (Val (json false (Some "Email and password are required")), w))
    /\
    (forall msg,
        falsy (b_email o) || falsy (b_password o) = false ->
        read_error st = Some msg ->
        Express.Signin env rt st (Some o) w
        = (Val (json false (Some msg)), w))
    /\
    (falsy (b_email o) || falsy (b_password o) = false ->
     read_error st = None ->
     lookup (text (b_email o)) (users w) = None ->
     Express.Signin env rt st (Some o) w
     = (Val (json false (Some "Invalid email")), w))
    /\
    (forall u,
        falsy (b_email o) || falsy (b_password o) = false ->
        read_error st = None ->
        lookup (text (b_email o)) (users w) = Some u ->
        bcrypt_compare (text (b_password o)) (UserModel.password u) = false ->
        Express.Signin env rt st (Some o) w
        = (Val (json false (Some "Incorrect password")), w))
    /\
    (forall u,
        falsy (b_email o) || falsy (b_password o) = false ->
        read_error st = None ->
        lookup (text (b_email o)) (users w) = Some u ->
        bcrypt_compare (text (b_password o)) (UserModel.password u) = true ->
        JWT_SECRET env = "" ->
        Express.Signin env rt st (Some o) w
        = (Val (json false (Some "secretOrPrivateKey must have a value")), w))
    /\
    (forall u,
        falsy (b_email o) || falsy (b_password o) = false ->
        read_error st = None ->
        lookup (text (b_email o)) (users w) = Some u ->
        bcrypt_compare (text (b_password o)) (UserModel.password u) = true ->
        JWT_SECRET env <> "" ->
        Express.Signin env rt st (Some o) w
        = (Val {| cookie := SetCookie "token" (session_for env rt u)
                              session_cookie_options;
                  sent := Json true None |}, w)).
Proof.
  intros rt st o w. rewrite Express_Signin_table.
  split; [|split; [|split; [|split; [|split]]]].
  - intros Hg. now rewrite Hg.
  - intros msg Hg Hr. now rewrite Hg, Hr.
  - intros Hg Hr Hl. now rewrite Hg, Hr, Hl.
  - intros u Hg Hr Hl Hc. now rewrite Hg, Hr, Hl, Hc.
  - intros u Hg Hr Hl Hc Hs. rewrite Hg, Hr, Hl, Hc, Hs. reflexivity.
  - intros u Hg Hr Hl Hc Hs. apply String.eqb_neq in Hs.
    now rewrite Hg, Hr, Hl, Hc, Hs.
Qed.

(** What [Express.userAuth] has checked when it calls [next()]. *)
Lemma Express_userAuth_next rt token b id :
  Express.userAuth env rt token b = Next id <->
  exists t o,
    token = Some (Signed t) /\ b = Some o
    /\ JWT_SECRET env <> ""
    /\ signed_with t = JWT_SECRET env
    /\ now rt / 1000 < exp t
    /\ c_id (payload t) = Some id.
Proof.
  unfold Express.userAuth, jwt_verify_checked, jwt_verify. split.
  - intros H.
    destruct token as [[t|s]|]; cbn [no_cookie] in H; try discriminate H;
      [|destruct (String.eqb s ""); discriminate H].
    destruct (String.eqb (JWT_SECRET env) "") eqn:Hs; [discriminate H|].
    destruct (String.eqb (signed_with t) (JWT_SECRET env)) eqn:Hk;
      cbn [negb] in H; [|discriminate H].
    destruct (exp t <=? now rt / 1000) eqn:Hx; [discriminate H|].
    destruct (c_id (payload t)) as [i|] eqn:Hid; [|discriminate H].
    destruct b as [o|]; [|discriminate H].
    injection H as ->. exists t, o.
    apply String.eqb_neq in Hs. apply String.eqb_eq in Hk.
    apply Z.leb_gt in Hx. repeat split; assumption.
  - intros (t & o & -> & -> & Hs & Hk & Hx & Hid). cbn [no_cookie].
    apply String.eqb_neq in Hs. rewrite Hs.
    apply String.eqb_eq in Hk. rewrite Hk. cbn [negb].
    apply Z.leb_gt in Hx. now rewrite Hx, Hid.
Qed.

Lemma Express_userAuth_stop rt token b r :
  Express.userAuth env rt token b = Stop r ->
  is_failure r = true /\ is_success r = false /\ cookie r = NoCookie.
Proof.
  unfold Express.userAuth, jwt_verify_checked, jwt_verify. intros H.
  repeat branch H; try discriminate H; injection H as <-;
    repeat split; reflexivity.
Qed.

(** [/is-auth] answers [success: true] exactly when the request carries a
    body and the cookie is a token signed with the server's secret, not
    expired, whose payload has an [id]; without a body the middleware's
    write of [req.body.userId] throws and the answer is [success: false].
    In every case it writes nothing and sets no cookie. *)
Theorem is_auth_exact :
  forall (rt : runtime) (st : store_state) (token : option cookie_value)
         (b : option json_body) (code : field) (w : world),
    exists r,
      Express.app env rt st
        {| req_route := is_auth_route; req_body := b;
           req_cookie := token; req_code := code |} w
      = (Val r, w)
      /\ cookie r = NoCookie
      /\ (is_success r = true
          <-> exists t o id,
                token = Some (Signed t) /\ b = Some o
                /\ JWT_SECRET env <> ""
                /\ signed_with t = JWT_SECRET env
                /\ now rt / 1000 < exp t
                /\ c_id (payload t) = Some id)
      /\ (is_success r = false -> is_failure r = true).
Proof.
  intros rt st token b code w.
  cbn [Express.app req_route req_body req_cookie].
  destruct (Express.userAuth env rt token b) as [id|r0] eqn:Hua.
  - exists (json true None). split; [reflexivity|]. split; [reflexivity|].
    split; [|discriminate]. split; [intros _|reflexivity].
    apply Express_userAuth_next in Hua.
    destruct Hua as (t & o & H1 & H2 & H3 & H4 & H5 & H6).
    exists t, o, id. repeat split; assumption.
  - exists r0. split; [reflexivity|].
    destruct (Express_userAuth_stop rt token b r0 Hua) as (Hf & Hns & Hc).
    split; [exact Hc|]. split; [|intros _; exact Hf].
    rewrite Hns. split; [discriminate|].
    intros (t & o & id & H1 & H2 & H3 & H4 & H5 & H6). exfalso.
    assert (Hn : Express.userAuth env rt token b = Next id).
    { apply Express_userAuth_next. exists t, o. repeat split; assumption. }
    rewrite Hn in Hua. discriminate Hua.
Qed.

Lemma Express_Signin_success_inv rt st b w r w' :
  Express.Signin env rt st b w = (Val r, w') ->
  is_success r = true ->
  exists o u,
    b = Some o
    /\ lookup (text (b_email o)) (users w) = Some u
    /\ r = json_with_session (session_for env rt u) true None
    /\ JWT_SECRET env <> ""
    /\ w' = w.
Proof.
  intros Hrun Hok. destruct b as [o|];
    [|unfold Express.Signin, Express.destructure, throw in Hrun;
      discriminate Hrun].
  rewrite Express_Signin_table in Hrun.
  destruct (falsy (b_email o) || falsy (b_password o));
    [injection Hrun as <- <-; discriminate Hok|].
  destruct (read_error st); [injection Hrun as <- <-; discriminate Hok|].
  destruct (lookup (text (b_email o)) (users w)) as [u|] eqn:Hl;
    [|injection Hrun as <- <-; discriminate Hok].
  destruct (bcrypt_compare (text (b_password o)) (UserModel.password u));
    [|injection Hrun as <- <-; discriminate Hok].
  destruct (String.eqb (JWT_SECRET env) "") eqn:Hs;
    [injection Hrun as <- <-; discriminate Hok|].
  injection Hrun as <- <-. exists o, u. apply String.eqb_neq in Hs.
  repeat split; try assumption; reflexivity.
Qed.

Lemma Express_verifyAccount_success_inv rt st b w r w' :
  Express.verifyAccount env rt st b w = (Val r, w') ->
  is_success r = true ->
  exists o u,
    b = Some o
    /\ lookup (text (b_email o)) (users w) = Some u
    /\ r = json_with_session (session_for env rt u) true
             (Some "Account verified")
    /\ JWT_SECRET env <> "".
Proof.
  intros H Hok. unfold_express. repeat branch H; try discriminate H;
    injection H as <- <-; try discriminate Hok.
  do 2 eexists. split; [reflexivity|].
  match goal with
  | E : b_email _ = Some _ |- _ => rewrite E
  end.
  split; [eassumption|]. split; [reflexivity|].
  now apply String.eqb_neq.
Qed.

(** The cookie that a successful [Signin] or [verifyAccount] sets carries
    the key of the document stored under the address of the request.
    Until 7 days (in
    whole seconds) after it was issued, [/is-auth] accepts it when the call
    carries a body, and answers [success: false] when it carries none;
    from then on the answer is "jwt expired" either way. *)
Theorem session_round_trip :
  forall (rt rt' : runtime) (st st' : store_state) (b b' : option json_body)
         (code : field) (w w' : world) (r : reply),
    Express.Signin env rt st b w = (Val r, w')
    \/ Express.verifyAccount env rt st b w = (Val r, w') ->
    is_success r = true ->
    exists t o u,
      sets_session r = Some t
      /\ b = Some o
      /\ lookup (text (b_email o)) (users w) = Some u
      /\ c_id (payload t) = Some (UserModel._id u)
      /\ (now rt' / 1000 < now rt / 1000 + seconds_7d ->
          Express.app env rt' st'
            {| req_route := is_auth_route; req_body := b';
               req_cookie := Some (Signed t); req_code := code |} w'
          = (Val (match b' with
                  | Some _ => json true None
                  | None =>
                      json false
                        (Some "Cannot set properties of undefined (setting 'userId')")
                  end), w'))
      /\ (now rt / 1000 + seconds_7d <= now rt' / 1000 ->
          Express.app env rt' st'
            {| req_route := is_auth_route; req_body := b';
               req_cookie := Some (Signed t); req_code := code |} w'
          = (Val (json false (Some "jwt expired")), w')).
Proof.
  intros rt rt' st st' b b' code w w' r Hrun Hok.
  assert (H : exists o u m,
             b = Some o
             /\ lookup (text (b_email o)) (users w) = Some u
             /\ r = json_with_session (session_for env rt u) true m
             /\ JWT_SECRET env <> "").
  { destruct Hrun as [Hrun|Hrun].
    - destruct (Express_Signin_success_inv rt st b w r w' Hrun Hok)
        as (o & u & H1 & H2 & H3 & H4 & _).
      exists o, u, None. repeat split; assumption.
    - destruct (Express_verifyAccount_success_inv rt st b w r w' Hrun Hok)
        as (o & u & H1 & H2 & H3 & H4).
      exists o, u, (Some "Account verified"). repeat split; assumption. }
  destruct H as (o & u & m & -> & Hl & -> & Hs).
  exists (session_for env rt u), o, u.
  split; [reflexivity|]. split; [reflexivity|]. split; [exact Hl|].
  split; [reflexivity|].
  apply String.eqb_neq in Hs.
  cbn [Express.app req_route req_body req_cookie].
  unfold Express.userAuth, jwt_verify_checked, jwt_verify, session_for,
    jwt_sign, isAuthenticated.
  cbn [no_cookie signed_with exp payload c_id].
  rewrite Hs, String.eqb_refl. cbn [negb]. split; intros Hx.
  - apply Z.leb_gt in Hx. rewrite Hx. destruct b'; reflexivity.
  - apply Z.leb_le in Hx. rewrite Hx. reflexivity.
Qed.

(** An uncaught exception comes before any write, and it comes from a
    handler without [catch] around the throwing statement: the OAuth
    callback, or a controller that destructures [req.body] when the request
    has no body. *)
Theorem uncaught_exception_writes_nothing :
  forall (rt : runtime) (st : store_state) (req : http_request)
         (w w' : world) (msg : string),
    Express.app env rt st req w = (Exn msg, w') ->
    w' = w
    /\ (req_route req = oauth_google_callback_route
        \/ (req_body req = None /\ reads_body (req_route req) = true)).
Proof.
  intros rt st [r0 b c code] w w' msg H.
  cbn [req_route req_body].
  destruct r0; run_app H; try discriminate H;
    injection H as _ <-; split; try reflexivity;
    first [left; reflexivity | right; split; reflexivity].
Qed.

End ExpressOutcomes.

(** C7 does not hold as it is written.  A [/singin] request without a body
    has neither email nor password, and it is not answered at all: the
    destructuring throws before the [try].  And with [JWT_SECRET] not set,
    Al's right password is answered [success: false] by the [catch]. *)
Lemma Signin_outcomes_counterexample :
  Express.app (lib := sample_library) sample_env (sample_rt 5000 uuid_a)
    store_up signin_without_body sample_world
  = (Exn "Cannot destructure property 'email' of 'req.body' as it is undefined.",
     sample_world)
  /\ lookup "al@x.com" (users sample_world) = Some al
  /\ bcrypt_compare (Library := sample_library) "pw1" (UserModel.password al)
     = true
  /\ Express.Signin (lib := sample_library) env_without_secret
       (sample_rt 5000 uuid_a) store_up
       (Some (signin_body (Some "al@x.com") (Some "pw1"))) sample_world
     = (Val (json false (Some "secretOrPrivateKey must have a value")),
        sample_world).
Proof. repeat split. Qed.

(** On requests with a body: no password; the store down; an address that
    is not registered; Al with a wrong password; Al with the right one when
    [JWT_SECRET] is not set, and when it is. *)
Lemma Signin_outcomes_witness :
  Express.Signin (lib := sample_library) sample_env (sample_rt 5000 uuid_a)
    store_up (Some (signin_body (Some "al@x.com") None)) sample_world
  = (Val (json false (Some "Email and password are required")), sample_world)
  /\
  Express.Signin (lib := sample_library) sample_env (sample_rt 5000 uuid_a)
    store_down (Some (signin_body (Some "al@x.com") (Some "pw1"))) sample_world
  = (Val (json false
            (Some "Operation `users.findOne()` buffering timed out after 10000ms")),
     sample_world)
  /\
  Express.Signin (lib := sample_library) sample_env (sample_rt 5000 uuid_a)
    store_up (Some (signin_body (Some "zed@x.com") (Some "pw1"))) sample_world
  = (Val (json false (Some "Invalid email")), sample_world)
  /\
  Express.Signin (lib := sample_library) sample_env (sample_rt 5000 uuid_a)
    store_up (Some (signin_body (Some "al@x.com") (Some "pw2"))) sample_world
  = (Val (json false (Some "Incorrect password")), sample_world)
  /\
  Express.Signin (lib := sample_library) env_without_secret
    (sample_rt 5000 uuid_a)
    store_up (Some (signin_body (Some "al@x.com") (Some "pw1"))) sample_world
  = (Val (json false (Some "secretOrPrivateKey must have a value")),
     sample_world)
  /\
  Express.Signin (lib := sample_library) sample_env (sample_rt 5000 uuid_a)
    store_up (Some (signin_body (Some "al@x.com") (Some "pw1"))) sample_world
  = (Val {| cookie := SetCookie "token" al_session session_cookie_options;
            sent := Json true None |}, sample_world).
Proof.
  pose proof (fun env st e p =>
                Signin_outcomes (lib := sample_library) env
                  (sample_rt 5000 uuid_a) st (signin_body e p) sample_world)
    as T.
  split; [|split; [|split; [|split; [|split]]]].
  - apply (proj1 (T sample_env store_up (Some "al@x.com") None)).
    reflexivity.
  - apply (proj1 (proj2 (T sample_env store_down
                           (Some "al@x.com") (Some "pw1"))));
      reflexivity.
  - apply (proj1 (proj2 (proj2 (T sample_env store_up
                                  (Some "zed@x.com") (Some "pw1")))));
      reflexivity.
  - apply (proj1 (proj2 (proj2 (proj2 (T sample_env store_up
                                         (Some "al@x.com") (Some "pw2")))))
             al);
      reflexivity.
  - apply (proj1 (proj2 (proj2 (proj2 (proj2
                    (T env_without_secret store_up
                       (Some "al@x.com") (Some "pw1")))))) al);
      reflexivity.
  - apply (proj2 (proj2 (proj2 (proj2 (proj2
                    (T sample_env store_up
                       (Some "al@x.com") (Some "pw1")))))) al);
      try reflexivity. discriminate.
Defined.

(** C9 does not hold as it is written.  With [JWT_SECRET] not set, Al's
    verification link, presented in time, is answered [success: false], and
    the collection has changed: Al is verified and his token is cleared.
    [jwt.sign] throws after [updateOne] has written. *)
Lemma error_atomicity_counterexample :
  Express.app (lib := sample_library) env_without_secret
    (sample_rt 5000 uuid_a) store_up verify_al sample_world
  = (Val (json false (Some "secretOrPrivateKey must have a value")),
     world_al_verified)
  /\ is_failure (json false (Some "secretOrPrivateKey must have a value"))
     = true
  /\ users world_al_verified <> users sample_world.
Proof.
  split; [reflexivity|]. split; [reflexivity|]. discriminate.
Qed.

(** Al's verification link is presented to a store that refuses the
    write: the answer is [success: false] and nothing has changed. *)
Lemma error_atomicity_witness :
  Express.app (lib := sample_library) sample_env (sample_rt 5000 uuid_a)
    store_read_only verify_al sample_world
  = (Val (json false (Some "not primary")), sample_world)
  /\ users sample_world = users sample_world
  /\ sample_world = sample_world.
Proof.
  assert (Hs : JWT_SECRET sample_env <> "") by discriminate.
  assert (Hrun : Express.app (lib := sample_library) sample_env
                   (sample_rt 5000 uuid_a) store_read_only verify_al
                   sample_world
                 = (Val (json false (Some "not primary")), sample_world))
    by reflexivity.
  split; [exact Hrun|].
  exact (error_atomicity (lib := sample_library) sample_env
           (sample_rt 5000 uuid_a) store_read_only verify_al
           sample_world sample_world (json false (Some "not primary"))
           Hs Hrun eq_refl).
Defined.

(** Al signs in at time 5000 and calls [/is-auth] at time 6000, with a
    body and without. *)
Lemma session_round_trip_witness :
  Express.app (lib := sample_library) sample_env (sample_rt 6000 uuid_a)
    store_up (is_auth_call (Some empty_body)) sample_world
  = (Val (json true None), sample_world)
  /\
  Express.app (lib := sample_library) sample_env (sample_rt 6000 uuid_a)
    store_up (is_auth_call None) sample_world
  = (Val (json false
            (Some "Cannot set properties of undefined (setting 'userId')")),
     sample_world).
Proof.
  assert (Hrun : Express.Signin (lib := sample_library) sample_env
                   (sample_rt 5000 uuid_a) store_up
                   (Some (signin_body (Some "al@x.com") (Some "pw1")))
                   sample_world
                 = (Val (json_with_session al_session true None),
                    sample_world)) by reflexivity.
  assert (Hx : now (sample_rt 6000 uuid_a) / 1000
               < now (sample_rt 5000 uuid_a) / 1000 + seconds_7d)
    by reflexivity.
  split.
  - destruct (session_round_trip (lib := sample_library) sample_env
                (sample_rt 5000 uuid_a) (sample_rt 6000 uuid_a)
                store_up store_up _ (Some empty_body) None
                sample_world sample_world _ (or_introl Hrun) eq_refl)
      as (t & o & u & Hs & _ & _ & _ & Hok & _).
    injection Hs as <-. exact (Hok Hx).
  - destruct (session_round_trip (lib := sample_library) sample_env
                (sample_rt 5000 uuid_a) (sample_rt 6000 uuid_a)
                store_up store_up _ None None
                sample_world sample_world _ (or_introl Hrun) eq_refl)
      as (t & o & u & Hs & _ & _ & _ & Hok & _).
    injection Hs as <-. exact (Hok Hx).
Defined.

(** [/register] without a body throws, and nothing is written. *)
Lemma uncaught_exception_writes_nothing_witness :
  snd (Express.app (lib := sample_library) sample_env (sample_rt 5000 uuid_a)
         store_up register_without_body sample_world)
  = sample_world
  /\ req_body register_without_body = None.
Proof.
  destruct (uncaught_exception_writes_nothing (lib := sample_library)
              sample_env (sample_rt 5000 uuid_a) store_up
              register_without_body sample_world _
              "Cannot destructure property 'name' of 'req.body' as it is undefined."
              eq_refl)
    as [Hw _].
  split; [exact Hw|reflexivity].
Defined.

(** * Mail *)

Section Mail.

Context {lib : Library}.
Variable env : process_env.

(** A request sends at most one mail, and only to the address it is about:
    the outbox is unchanged, or it has one more mail, and then the request
    is a [/register] or a [/send-reset-token] that succeeded, and the mail
    goes from [SENDER_EMAIL] to its [email] field. *)
Theorem mail_goes_to_the_addressee :
  forall (rt : runtime) (req : request) (w w' : world) (res : res reply),
    authRouter env rt req w = (res, w') ->
    outbox w' = outbox w
    \/ exists e m r,
         ((exists name password, req = POST_register name (Some e) password)
          \/ req = POST_send_reset_token (Some e))
         /\ addressee rt req = Some e
         /\ outbox w' = outbox w ++ [m]
         /\ mail_to m = e
         /\ mail_from m = SENDER_EMAIL env
         /\ res = Val r /\ is_success r = true.
Proof.
  intros rt req w w' res H.
  destruct req; cbn [addressee]; cbn [authRouter] in H;
    unfold register, verifyAccount, Signin, Logout, isAuthenticated,
      sendResetToken, verifyResetToken, resetPassword, googleLogin,
      googleVerifyToken, userAuth in H;
    unfold_js; repeat branch H; injection H as <- <-;
    cbn [outbox];
    first [ left; reflexivity
          | match goal with
            | H : validate _ = Val _ |- _ => cbn in H; discriminate H
            end
          | right; do 3 eexists;
            split;
            [first [left; do 2 eexists; reflexivity | right; reflexivity]
            |repeat split] ].
Qed.

End Mail.

(** The first reset link for Al is mailed to Al. *)
Lemma mail_goes_to_the_addressee_witness :
  exists m,
    outbox world_after_first_reset = outbox sample_world ++ [m]
    /\ mail_to m = "al@x.com".
Proof.
  destruct (mail_goes_to_the_addressee (lib := sample_library) sample_env
              (sample_rt 3000 uuid_a)
              (POST_send_reset_token (Some "al@x.com"))
              sample_world world_after_first_reset
              (Val (json true (Some "Reset link sent to email"))) eq_refl)
    as [Hsame|(e & m & r & _ & Ha & Ho & Hto & _)].
  - discriminate Hsame.
  - injection Ha as <-. exists m. split; [exact Ho|exact Hto].
Defined.
